(** * timestampvm: the block of the timestamp chain (block.go)

    A shallow embedding of [TimeBlock] and of its methods [Verify],
    [Initialize], [Accept] and [Reject].  Blocks are Go pointers, and the
    map of verified blocks of a VM holds pointers to them: the embedding keeps
    a heap of block objects and a heap of VMs, so that a status written
    through one reference is seen through every other one. *)

From Stdlib Require Import ZArith List Lia.
From Stdlib.Strings Require Import Byte.
From stdpp Require Import base option list gmap.

Local Open Scope Z_scope.

(** ** Values of the imported packages *)

Module ids.

(** [ids.ID] is an array of 32 bytes, read here as a 256-bit number. *)
Abbreviation ID := Z (only parsing).

End ids.

(** Addresses of heap objects ([*TimeBlock], [*VM]); [None] is Go's nil. *)
Abbreviation loc := nat (only parsing).

Module choices.

(** [choices.Status]: the iota enumeration of snow/choices. *)
Inductive Status := Unknown | Processing | Rejected | Accepted.

(** [Status.Decided]: Accepted and Rejected are the terminal values. *)
Definition Decided (s : Status) : bool :=
  match s with
  | Rejected | Accepted => true
  | Unknown | Processing => false
  end.

End choices.

Module time.

(** A [time.Time] is an instant with nanosecond precision, kept as the
    count of nanoseconds since the Unix epoch; a [time.Duration] is a count
    of nanoseconds. *)
Definition Time := Z.
Definition Duration := Z.

Definition Second : Duration := 1000000000.
Definition Hour : Duration := 3600 * Second.

(** [time.Unix(sec, nsec)] *)
Definition Unix (sec nsec : Z) : Time := sec * Second + nsec.

(** [t.Unix()]: the whole seconds since the epoch, rounded down. *)
Definition Time_Unix (t : Time) : Z := t / Second.

(** [t.Add(d)] *)
Definition Add (t : Time) (d : Duration) : Time := t + d.

End time.

(** Addition of [uint64], which wraps around. *)
Definition add64 (x y : Z) : Z := (x + y) mod 2 ^ 64.

(** ** The block *)

Record TimeBlock := mkTimeBlock {
  PrntID : ids.ID;             (* parent's ID *)
  Hght : Z;                    (* uint64; the genesis block is at height 0 *)
  Tmstmp : Z;                  (* int64, Unix seconds *)
  Dt : list byte;              (* [dataLen]byte *)
  b_id : ids.ID;               (* the unexported fields id, bytes, status, vm *)
  b_bytes : list byte;
  b_status : choices.Status;
  b_vm : option loc            (* *VM *)
}.

Definition with_status (s : choices.Status) (b : TimeBlock) : TimeBlock :=
  mkTimeBlock (PrntID b) (Hght b) (Tmstmp b) (Dt b) (b_id b) (b_bytes b) s (b_vm b).

(** The values of Go's [error] that the methods return.  The height error is
    built by [fmt.Errorf] from the two heights; [errNotFound] and [errStore]
    are the errors of the store, which the methods pass on as they are. *)
Inductive error :=
| errTimestampTooEarly
| errDatabaseGet
| errTimestampTooLate
| errBlockNil
| errHeight (expectedHeight found : Z)
| errNotFound
| errStore (code : nat).

(** [newTimeBlock]: the unexported fields keep their zero values. *)
Definition newTimeBlock (parentID : ids.ID) (height : Z) (data : list byte)
    (timestamp : time.Time) : TimeBlock :=
  mkTimeBlock parentID height (time.Time_Unix timestamp) data
              0 [] choices.Unknown None.

(** The accessors of a block value. *)
Definition Parent (b : TimeBlock) : ids.ID := PrntID b.
Definition Height (b : TimeBlock) : Z := Hght b.
Definition Timestamp (b : TimeBlock) : time.Time := time.Unix (Tmstmp b) 0.
Definition ID (b : TimeBlock) : ids.ID := b_id b.
Definition Status (b : TimeBlock) : choices.Status := b_status b.
Definition Bytes (b : TimeBlock) : list byte := b_bytes b.
Definition Data (b : TimeBlock) : list byte := Dt b.

(** ** The store *)

Module Store.

(** The calls of the store interface, as the journal records them. *)
Inductive Call :=
| CallGetBlock (i : ids.ID)
| CallPutBlock (blk : TimeBlock)
| CallSetLastAccepted (i : ids.ID)
| CallCommit.

(** A write that has been made and is not committed yet. *)
Inductive Write :=
| WBlock (i : ids.ID) (blk : TimeBlock)
| WLast (i : ids.ID).

(** Modelled from the spec: the store behind [vm.state] (state.go is not
    part of the sources).  The spec gives its interface, [GetBlock],
    [PutBlock], [SetLastAccepted] and [Commit], each of which may fail, with
    an atomic commit.  [durable_blocks] and [durable_last] are what has been
    committed, [staged] the writes of the open transaction, oldest first.
    [journal] is the history of the calls made, oldest first.  [faults]
    decides which calls fail: every call takes the head of the list, and
    fails with the error found there, if any. *)
Record t := mk {
  durable_blocks : gmap ids.ID TimeBlock;
  durable_last : option ids.ID;
  staged : list Write;
  journal : list Call;
  faults : list (option error)
}.

Definition apply_write (d : gmap ids.ID TimeBlock * option ids.ID) (w : Write)
    : gmap ids.ID TimeBlock * option ids.ID :=
  match w with
  | WBlock i blk => (<[i := blk]> (fst d), snd d)
  | WLast i => (fst d, Some i)
  end.

(** What the store holds once the staged writes are applied. *)
Definition flush (s : t) : gmap ids.ID TimeBlock * option ids.ID :=
  fold_left apply_write (staged s) (durable_blocks s, durable_last s).

(** What a reader of the store sees: the staged writes over the committed
    ones. *)
Definition view_blocks (s : t) : gmap ids.ID TimeBlock := fst (flush s).
Definition lastAccepted (s : t) : option ids.ID := snd (flush s).

(** A call is entered in the journal and takes its fault. *)
Definition enter (c : Call) (s : t) : option error * t :=
  match faults s with
  | [] => (None, mk (durable_blocks s) (durable_last s) (staged s)
                    (journal s ++ [c]) [])
  | f :: fs => (f, mk (durable_blocks s) (durable_last s) (staged s)
                      (journal s ++ [c]) fs)
  end.

Definition stage (w : Write) (s : t) : t :=
  mk (durable_blocks s) (durable_last s) (staged s ++ [w]) (journal s)
     (faults s).

(** [PutBlock(blk)]: the record written is the block as it is at the call,
    under the block's id. *)
Definition PutBlock (blk : TimeBlock) (s : t) : option error * t :=
  match enter (CallPutBlock blk) s with
  | (Some e, s') => (Some e, s')
  | (None, s') => (None, stage (WBlock (b_id blk) blk) s')
  end.

Definition SetLastAccepted (i : ids.ID) (s : t) : option error * t :=
  match enter (CallSetLastAccepted i) s with
  | (Some e, s') => (Some e, s')
  | (None, s') => (None, stage (WLast i) s')
  end.

Definition Commit (s : t) : option error * t :=
  match enter CallCommit s with
  | (Some e, s') => (Some e, s')
  | (None, s') =>
      (None, mk (fst (flush s')) (snd (flush s')) [] (journal s') (faults s'))
  end.

Definition GetBlock (i : ids.ID) (s : t) : (TimeBlock + error) * t :=
  match enter (CallGetBlock i) s with
  | (Some e, s') => (inr e, s')
  | (None, s') =>
      match view_blocks s' !! i with
      | Some blk => (inl blk, s')
      | None => (inr errNotFound, s')
      end
  end.

End Store.

(** ** The VM and the heap *)

(** Modelled from the spec: the part of the VM that block.go uses (vm.go is
    not part of the sources): the map of the verified blocks, which holds
    pointers to blocks, and the store. *)
Record VM := mkVM {
  verifiedBlocks : gmap ids.ID loc;
  state : Store.t
}.

Record World := mkWorld {
  blocks : gmap loc TimeBlock;
  vms : gmap loc VM
}.

(** A call returns with a value and the world it leaves, or panics. *)
Inductive exec (A : Type) :=
| Done (a : A) (w : World)
| Panicked.
Arguments Done {A} a w.
Arguments Panicked {A}.

Definition M (A : Type) : Type := World -> exec A.

Definition ret {A} (a : A) : M A := fun w => Done a w.

Definition bind {A B} (m : M A) (k : A -> M B) : M B :=
  fun w => match m w with
           | Done a w' => k a w'
           | Panicked => Panicked
           end.

Notation "'do' x <- m ; k" := (bind m (fun x => k))
  (at level 10, x name, m at level 100, k at level 200).
Notation "'run' m ; k" := (bind m (fun _ => k))
  (at level 10, m at level 100, k at level 200).

(** Reading through a block pointer; a nil pointer panics. *)
Definition load (b : option loc) : M TimeBlock :=
  fun w => match b with
           | None => Panicked
           | Some a => match blocks w !! a with
                       | Some blk => Done blk w
                       | None => Panicked
                       end
           end.

(** Writing through a block pointer. *)
Definition store (b : option loc) (f : TimeBlock -> TimeBlock) : M unit :=
  fun w => match b with
           | None => Panicked
           | Some a => match blocks w !! a with
                       | Some blk =>
                           Done tt (mkWorld (<[a := f blk]> (blocks w)) (vms w))
                       | None => Panicked
                       end
           end.

(** Reading and writing through a VM pointer. *)
Definition load_vm (v : option loc) : M VM :=
  fun w => match v with
           | None => Panicked
           | Some x => match vms w !! x with
                       | Some V => Done V w
                       | None => Panicked
                       end
           end.

Definition store_vm (v : option loc) (f : VM -> VM) : M unit :=
  fun w => match v with
           | None => Panicked
           | Some x => match vms w !! x with
                       | Some V =>
                           Done tt (mkWorld (blocks w) (<[x := f V]> (vms w)))
                       | None => Panicked
                       end
           end.

(** The call of an accessor through a block pointer. *)
Definition method {A} (f : TimeBlock -> A) (b : option loc) : M A :=
  do blk <- load b; ret (f blk).

(** A call of the store of the VM behind [v]. *)
Definition call_state {A} (v : option loc) (op : Store.t -> A * Store.t) : M A :=
  do V <- load_vm v;
  run store_vm v (fun V' => mkVM (verifiedBlocks V') (snd (op (state V))));
  ret (fst (op (state V))).

(** Modelled from the spec: [vm.GetBlock] (vm.go is not part of the sources)
    looks the block up through the store. *)
Definition VM_GetBlock (v : option loc) (i : ids.ID) : M (TimeBlock + error) :=
  call_state v (Store.GetBlock i).

(** ** The methods of block.go *)

Section Methods.

(** [hashing.ComputeHash256Array] of avalanchego, which [Initialize]
    calls. *)
Variable ComputeHash256Array : list byte -> ids.ID.

Definition SetStatus (b : option loc) (status : choices.Status) : M unit :=
  store b (with_status status).

(** [now] is the reading of the clock, [time.Now()]. *)
Definition Verify (now : time.Time) (b : option loc) : M (option error) :=
  match b with
  | None => ret (Some errBlockNil)
  | Some a =>
      do blk <- load b;
      let parentID := Parent blk in
      do r <- VM_GetBlock (b_vm blk) parentID;
      match r with
      | inr _ => ret (Some errDatabaseGet)
      | inl parent =>
          let expectedHeight := add64 (Height parent) 1 in
          if negb (expectedHeight =? Hght blk) then
            ret (Some (errHeight expectedHeight (Hght blk)))
          else if time.Time_Unix (Timestamp blk)
                  <? time.Time_Unix (Timestamp parent) then
            ret (Some errTimestampTooEarly)
          else if time.Time_Unix (Timestamp blk)
                  >=? time.Time_Unix (time.Add now time.Hour) then
            ret (Some errTimestampTooLate)
          else
            run store_vm (b_vm blk)
              (fun V => mkVM (<[b_id blk := a]> (verifiedBlocks V)) (state V));
            ret None
      end
  end.

Definition Initialize (b : option loc) (bytes : list byte)
    (status : choices.Status) (vm : option loc) : M unit :=
  run store b (fun blk =>
    mkTimeBlock (PrntID blk) (Hght blk) (Tmstmp blk) (Dt blk)
                (b_id blk) (b_bytes blk) (b_status blk) vm);
  run store b (fun blk =>
    mkTimeBlock (PrntID blk) (Hght blk) (Tmstmp blk) (Dt blk)
                (b_id blk) bytes (b_status blk) (b_vm blk));
  run store b (fun blk =>
    mkTimeBlock (PrntID blk) (Hght blk) (Tmstmp blk) (Dt blk)
                (ComputeHash256Array (b_bytes blk)) (b_bytes blk)
                (b_status blk) (b_vm blk));
  store b (with_status status).

(** [b.vm.state.PutBlock(b)] *)
Definition state_PutBlock (b : option loc) : M (option error) :=
  do blk <- load b;
  call_state (b_vm blk) (Store.PutBlock blk).

(** [b.vm.state.SetLastAccepted(blkID)] *)
Definition state_SetLastAccepted (b : option loc) (i : ids.ID) : M (option error) :=
  do blk <- load b;
  call_state (b_vm blk) (Store.SetLastAccepted i).

(** [b.vm.state.Commit()] *)
Definition state_Commit (b : option loc) : M (option error) :=
  do blk <- load b;
  call_state (b_vm blk) Store.Commit.

(** [delete(b.vm.verifiedBlocks, b.ID())] *)
Definition delete_verified (b : option loc) : M unit :=
  do blk <- load b;
  do i <- method ID b;
  store_vm (b_vm blk) (fun V => mkVM (delete i (verifiedBlocks V)) (state V)).

Definition Accept (b : option loc) : M (option error) :=
  run SetStatus b choices.Accepted;
  do blkID <- method ID b;
  do err <- state_PutBlock b;
  match err with
  | Some e => ret (Some e)
  | None =>
      do err <- state_SetLastAccepted b blkID;
      match err with
      | Some e => ret (Some e)
      | None =>
          run delete_verified b;
          state_Commit b
      end
  end.

Definition Reject (b : option loc) : M (option error) :=
  run SetStatus b choices.Rejected;
  do err <- state_PutBlock b;
  match err with
  | Some e => ret (Some e)
  | None =>
      run delete_verified b;
      state_Commit b
  end.

End Methods.

(** ** The worlds that the methods leave *)

(** The world after [Accept] and [Reject]: the block with its new status, and
    the VM with its map and store. *)
Definition settled (a : loc) (blk : TimeBlock) (v : loc) (V : VM) (w : World)
    : World :=
  mkWorld (<[a := blk]> (blocks w)) (<[v := V]> (vms w)).

(** The world after [Verify]: only the VM of the block changes. *)
Definition verified (v : loc) (V : VM) (w : World) : World :=
  mkWorld (blocks w) (<[v := V]> (vms w)).

(** The three checks of [Verify] against the parent, in the order of the
    code. *)
Definition checks (now : time.Time) (blk parent : TimeBlock) : option error :=
  if negb (add64 (Height parent) 1 =? Hght blk) then
    Some (errHeight (add64 (Height parent) 1) (Hght blk))
  else if time.Time_Unix (Timestamp blk) <? time.Time_Unix (Timestamp parent) then
    Some errTimestampTooEarly
  else if time.Time_Unix (Timestamp blk)
          >=? time.Time_Unix (time.Add now time.Hour) then
    Some errTimestampTooLate
  else None.

(** The block that [Initialize] leaves. *)
Definition initialized (ComputeHash256Array : list byte -> ids.ID)
    (bytes : list byte) (status : choices.Status)
    (vm : option loc) (blk : TimeBlock) : TimeBlock :=
  mkTimeBlock (PrntID blk) (Hght blk) (Tmstmp blk) (Dt blk)
              (ComputeHash256Array bytes) bytes status vm.

(** ** Sequences of calls *)

(** The calls that change a block or the world. *)
Inductive call :=
| CallInitialize (b : option loc) (bytes : list byte) (status : choices.Status)
                 (vm : option loc)
| CallVerify (now : time.Time) (b : option loc)
| CallAccept (b : option loc)
| CallReject (b : option loc).

Section Calls.

Variable ComputeHash256Array : list byte -> ids.ID.

Definition run_call (c : call) : M (option error) :=
  match c with
  | CallInitialize b bytes status vm =>
      run Initialize ComputeHash256Array b bytes status vm; ret None
  | CallVerify now b => Verify now b
  | CallAccept b => Accept b
  | CallReject b => Reject b
  end.

(** The worlds that a sequence of calls reaches from [w0]; a call that
    panics leaves no world. *)
Inductive reachable (w0 : World) : World -> Prop :=
| reachable_start : reachable w0 w0
| reachable_call w c r w' :
    reachable w0 w -> run_call c w = Done r w' -> reachable w0 w'.




End Calls.


(** No entry of a map of verified blocks has status Accepted or Rejected. *)
Definition pending_undecided (w : World) : Prop :=
  forall v V k a blk,
    vms w !! v = Some V -> verifiedBlocks V !! k = Some a ->
    blocks w !! a = Some blk -> choices.Decided (b_status blk) = false.


(** ** Sample worlds *)

Module Sample.

(** A stand-in for the hash in the examples. *)
Definition hash (bs : list byte) : ids.ID := 100 + Z.of_nat (length bs).

(** The genesis block, accepted and in the store under id 1. *)
Definition genesis : TimeBlock :=
  mkTimeBlock 0 0 1000 [] 1 [] choices.Accepted (Some 0%nat).

Definition store0 (faults : list (option error)) : Store.t :=
  Store.mk {[ 1 := genesis ]} (Some 1) [] [] faults.

(** A child of the genesis block, ten seconds later, as [newTimeBlock]
    leaves it. *)
Definition child : TimeBlock := newTimeBlock 1 1 [] (time.Unix 1010 0).

(** Another block with other fields. *)
Definition other : TimeBlock := newTimeBlock 5 9 ["x"%byte] (time.Unix 77 0).

(** One VM at address 0 and two blocks at addresses 0 and 1. *)
Definition world0 (faults : list (option error)) : World :=
  mkWorld {[ 0%nat := child; 1%nat := other ]}
          {[ 0%nat := mkVM ∅ (store0 faults) ]}.

Definition bytes0 : list byte := ["a"%byte].

(** The clock: 2000.5 seconds after the epoch. *)
Definition now0 : time.Time := time.Unix 2000 500000000.

Definition child1 : TimeBlock :=
  initialized hash bytes0 choices.Processing (Some 0%nat) child.

(** [child] initialized. *)
Definition world1 (faults : list (option error)) : World :=
  mkWorld (<[ 0%nat := child1 ]> (blocks (world0 faults)))
          (vms (world0 faults)).

(** [child] initialized and verified. *)
Definition world2 (faults : list (option error)) : World :=
  match Verify now0 (Some 0%nat) (world1 (None :: faults)) with
  | Done _ w => w
  | Panicked => world1 faults
  end.

(** [child] initialized, verified and accepted. *)
Definition world3 : World :=
  match Accept (Some 0%nat) (world2 []) with
  | Done _ w => w
  | Panicked => world2 []
  end.

(** [child] initialized, verified and rejected. *)
Definition world4 : World :=
  match Reject (Some 0%nat) (world2 []) with
  | Done _ w => w
  | Panicked => world2 []
  end.

(** [child] initialized and verified, then [Accept] and [Reject] with a
    store whose next call fails. *)
Definition world_failed_Accept : World :=
  match Accept (Some 0%nat) (world2 [Some (errStore 1)]) with
  | Done _ w => w
  | Panicked => world2 []
  end.

Definition world_failed_Reject : World :=
  match Reject (Some 0%nat) (world2 [Some (errStore 1)]) with
  | Done _ w => w
  | Panicked => world2 []
  end.

(** [child] and [other] initialized with the same bytes. *)
Definition world_twins : World :=
  mkWorld (<[ 1%nat := initialized hash bytes0 choices.Unknown None other ]>
             (blocks (world1 [])))
          (vms (world1 [])).






End Sample.

(** ** Blocks without a VM, and further sample worlds *)

(** The VM of the block is nil, or is not allocated. *)
Definition unbound (blk : TimeBlock) (w : World) : Prop :=
  match b_vm blk with
  | None => True
  | Some v => vms w !! v = None
  end.

(** The exported fields of a block, which are serialized. *)
Definition exported (b : TimeBlock) : ids.ID * Z * Z * list byte :=
  (PrntID b, Hght b, Tmstmp b, Dt b).

Module SampleChain.

(** [Sample.other], whose parent id 5 is not in the store, bound to the
    VM. *)
Definition orphan : TimeBlock :=
  initialized Sample.hash Sample.bytes0 choices.Processing (Some 0%nat)
              Sample.other.

Definition world_orphan : World :=
  mkWorld (<[ 1%nat := orphan ]> (blocks (Sample.world1 [])))
          (vms (Sample.world1 [])).

(** A child of [Sample.child1], whose id is 101, twenty seconds after the
    genesis block, at address 2. *)
Definition grandchild : TimeBlock :=
  mkTimeBlock 101 2 1020 [] 102 ["a"%byte; "b"%byte] choices.Processing
              (Some 0%nat).

(** The world in which [Sample.child1] is verified, with the grandchild. *)
Definition world_family : World :=
  mkWorld (<[ 2%nat := grandchild ]> (blocks (Sample.world2 [])))
          (vms (Sample.world2 [])).

(** [Sample.child1] a second time, at address 3: another block with the
    same bytes and so the same id. *)
Definition world_double (faults : list (option error)) : World :=
  mkWorld (<[ 3%nat := Sample.child1 ]> (blocks (Sample.world1 faults)))
          (vms (Sample.world1 faults)).

Definition accepted (w : World) : World :=
  match Accept (Some 0%nat) w with
  | Done _ w' => w'
  | Panicked => w
  end.

Definition rejected (w : World) : World :=
  match Reject (Some 0%nat) w with
  | Done _ w' => w'
  | Panicked => w
  end.

Definition verified_at (a : loc) (w : World) : World :=
  match Verify Sample.now0 (Some a) w with
  | Done _ w' => w'
  | Panicked => w
  end.

(** The VM at address 0. *)
Definition vm_of (w : World) : VM :=
  default (mkVM ∅ (Sample.store0 [])) (vms w !! 0%nat).

End SampleChain.

(** ** Equations of the heap operations *)

Lemma load_eq a blk w :
  blocks w !! a = Some blk -> load (Some a) w = Done blk w.
Proof. intros H. unfold load. now rewrite H. Qed.

Lemma store_eq a blk f w :
  blocks w !! a = Some blk ->
  store (Some a) f w = Done tt (mkWorld (<[a := f blk]> (blocks w)) (vms w)).
Proof. intros H. unfold store. now rewrite H. Qed.

Lemma load_vm_eq v V w :
  vms w !! v = Some V -> load_vm (Some v) w = Done V w.
Proof. intros H. unfold load_vm. now rewrite H. Qed.

Lemma store_vm_eq v V f w :
  vms w !! v = Some V ->
  store_vm (Some v) f w = Done tt (mkWorld (blocks w) (<[v := f V]> (vms w))).
Proof. intros H. unfold store_vm. now rewrite H. Qed.

Lemma call_state_eq {A} v V (op : Store.t -> A * Store.t) w :
  vms w !! v = Some V ->
  call_state (Some v) op w =
  Done (fst (op (state V)))
       (mkWorld (blocks w)
                (<[v := mkVM (verifiedBlocks V) (snd (op (state V)))]> (vms w))).
Proof.
  intros H. unfold call_state, bind, ret.
  rewrite (load_vm_eq _ _ _ H), (store_vm_eq _ _ _ _ H). reflexivity.
Qed.

Lemma Accept_eq a blk v V w :
  blocks w !! a = Some blk -> b_vm blk = Some v -> vms w !! v = Some V ->
  Accept (Some a) w =
  let blk' := with_status choices.Accepted blk in
  match Store.PutBlock blk' (state V) with
  | (Some e, s1) => Done (Some e) (settled a blk' v (mkVM (verifiedBlocks V) s1) w)
  | (None, s1) =>
      match Store.SetLastAccepted (b_id blk) s1 with
      | (Some e, s2) =>
          Done (Some e) (settled a blk' v (mkVM (verifiedBlocks V) s2) w)
      | (None, s2) =>
          Done (fst (Store.Commit s2))
               (settled a blk' v
                  (mkVM (delete (b_id blk) (verifiedBlocks V))
                        (snd (Store.Commit s2))) w)
      end
  end.
Proof.
  intros Hb Hv HV. cbv zeta.
  unfold Accept, SetStatus, state_PutBlock, state_SetLastAccepted,
    state_Commit, delete_verified.
  unfold method, ID, bind, ret.
  rewrite (store_eq _ _ _ _ Hb).
  set (blk' := with_status choices.Accepted blk).
  set (w1 := mkWorld _ _).
  assert (Hb1 : blocks w1 !! a = Some blk') by apply lookup_insert_eq.
  rewrite !(load_eq _ _ _ Hb1). cbn [b_vm b_id blk' with_status]. rewrite Hv.
  rewrite (call_state_eq _ _ _ _ (HV : vms w1 !! v = Some V)).
  destruct (Store.PutBlock blk' (state V)) as [[e|] s1]; cbn [fst snd]; [reflexivity|].
  rewrite (load_eq a blk') by apply Hb1. cbn [b_vm blk' with_status]. rewrite Hv.
  rewrite (call_state_eq v (mkVM (verifiedBlocks V) s1)) by apply lookup_insert_eq.
  cbn [blocks vms state verifiedBlocks].
  destruct (Store.SetLastAccepted (b_id blk) s1) as [[e|] s2]; cbn [fst snd].
  - unfold settled, w1. cbn [blocks vms]. now rewrite insert_insert_eq.
  - rewrite !(load_eq a blk') by apply Hb1. cbn [b_vm b_id blk' with_status]. rewrite Hv.
    rewrite (store_vm_eq v (mkVM (verifiedBlocks V) s2)) by apply lookup_insert_eq.
    cbn [blocks vms state verifiedBlocks].
    rewrite (load_eq a blk') by apply Hb1. cbn [b_vm b_id blk' with_status]. rewrite Hv.
    rewrite (call_state_eq v (mkVM (delete (b_id blk) (verifiedBlocks V)) s2))
      by apply lookup_insert_eq.
    cbn [blocks vms state verifiedBlocks].
    unfold settled, w1. cbn [blocks vms]. now rewrite !insert_insert_eq.
Qed.

Lemma Reject_eq a blk v V w :
  blocks w !! a = Some blk -> b_vm blk = Some v -> vms w !! v = Some V ->
  Reject (Some a) w =
  let blk' := with_status choices.Rejected blk in
  match Store.PutBlock blk' (state V) with
  | (Some e, s1) => Done (Some e) (settled a blk' v (mkVM (verifiedBlocks V) s1) w)
  | (None, s1) =>
      Done (fst (Store.Commit s1))
           (settled a blk' v
              (mkVM (delete (b_id blk) (verifiedBlocks V))
                    (snd (Store.Commit s1))) w)
  end.
Proof.
  intros Hb Hv HV. cbv zeta.
  unfold Reject, SetStatus, state_PutBlock, state_Commit, delete_verified.
  unfold method, ID, bind, ret.
  rewrite (store_eq _ _ _ _ Hb).
  set (blk' := with_status choices.Rejected blk).
  set (w1 := mkWorld _ _).
  assert (Hb1 : blocks w1 !! a = Some blk') by apply lookup_insert_eq.
  rewrite !(load_eq _ _ _ Hb1). cbn [b_vm b_id blk' with_status]. rewrite Hv.
  rewrite (call_state_eq _ _ _ _ (HV : vms w1 !! v = Some V)).
  destruct (Store.PutBlock blk' (state V)) as [[e|] s1]; cbn [fst snd]; [reflexivity|].
  rewrite !(load_eq a blk') by apply Hb1. cbn [b_vm b_id blk' with_status]. rewrite Hv.
  rewrite (store_vm_eq v (mkVM (verifiedBlocks V) s1)) by apply lookup_insert_eq.
  cbn [blocks vms state verifiedBlocks].
  rewrite (load_eq a blk') by apply Hb1. cbn [b_vm b_id blk' with_status]. rewrite Hv.
  rewrite (call_state_eq v (mkVM (delete (b_id blk) (verifiedBlocks V)) s1))
    by apply lookup_insert_eq.
  cbn [blocks vms state verifiedBlocks].
  unfold settled, w1. cbn [blocks vms]. now rewrite !insert_insert_eq.
Qed.

Lemma Verify_eq now a blk v V w :
  blocks w !! a = Some blk -> b_vm blk = Some v -> vms w !! v = Some V ->
  Verify now (Some a) w =
  match Store.GetBlock (PrntID blk) (state V) with
  | (inr _, s1) =>
      Done (Some errDatabaseGet) (verified v (mkVM (verifiedBlocks V) s1) w)
  | (inl parent, s1) =>
      match checks now blk parent with
      | Some e => Done (Some e) (verified v (mkVM (verifiedBlocks V) s1) w)
      | None =>
          Done None
               (verified v (mkVM (<[b_id blk := a]> (verifiedBlocks V)) s1) w)
      end
  end.
Proof.
  intros Hb Hv HV.
  unfold Verify, VM_GetBlock, bind, ret.
  rewrite (load_eq _ _ _ Hb), Hv, (call_state_eq _ _ _ _ HV).
  unfold Parent.
  destruct (Store.GetBlock (PrntID blk) (state V)) as [[parent|e] s1];
    cbn [fst snd]; [|reflexivity].
  unfold checks.
  destruct (negb _); [reflexivity|].
  destruct (_ <? _); [reflexivity|].
  destruct (_ >=? _); [reflexivity|].
  rewrite (store_vm_eq v (mkVM (verifiedBlocks V) s1)) by apply lookup_insert_eq.
  unfold verified. cbn [blocks vms verifiedBlocks state].
  now rewrite insert_insert_eq.
Qed.

Section InitializeEquation.

Variable ComputeHash256Array : list byte -> ids.ID.

Lemma Initialize_eq a blk bytes status vm w :
  blocks w !! a = Some blk ->
  Initialize ComputeHash256Array (Some a) bytes status vm w =
  Done tt (mkWorld (<[a := initialized ComputeHash256Array bytes status vm blk]> (blocks w))
                   (vms w)).
Proof.
  intros Hb. unfold Initialize, bind.
  rewrite (store_eq _ _ _ _ Hb).
  rewrite (store_eq a _ _ (mkWorld _ _) (lookup_insert_eq _ _ _)).
  cbn [blocks vms].
  rewrite (store_eq a _ _ (mkWorld _ _) (lookup_insert_eq _ _ _)).
  cbn [blocks vms].
  rewrite (store_eq a _ _ (mkWorld _ _) (lookup_insert_eq _ _ _)).
  cbn [blocks vms]. now rewrite !insert_insert_eq.
Qed.

End InitializeEquation.

(** ** Calls that return *)

(** A method that returns was called on a block that is allocated, and, for
    the methods that use the VM, whose VM is set. *)
Lemma store_Done b f r w w' :
  store b f w = Done r w' -> exists a blk, b = Some a /\ blocks w !! a = Some blk.
Proof.
  unfold store. destruct b as [a|]; [|discriminate].
  destruct (blocks w !! a) as [blk|] eqn:E; [|discriminate]. eauto.
Qed.

Lemma call_state_Done {A} v (op : Store.t -> A * Store.t) r w w' :
  call_state v op w = Done r w' -> exists x V, v = Some x /\ vms w !! x = Some V.
Proof.
  unfold call_state, bind, load_vm. destruct v as [x|]; [|discriminate].
  destruct (vms w !! x) as [V|] eqn:E; [|discriminate]. eauto.
Qed.

Lemma Accept_Done b r w w' :
  Accept b w = Done r w' ->
  exists a blk v V,
    b = Some a /\ blocks w !! a = Some blk /\ b_vm blk = Some v /\
    vms w !! v = Some V.
Proof.
  intros H. unfold Accept, SetStatus, bind in H.
  destruct (store b _ w) as [[] w1|] eqn:E1; [|discriminate].
  destruct (store_Done _ _ _ _ _ E1) as (a & blk & -> & Hb).
  rewrite (store_eq _ _ _ _ Hb) in E1. injection E1 as <-.
  unfold method, ID, state_PutBlock, bind, ret in H.
  rewrite !(load_eq a (with_status choices.Accepted blk)) in H
    by apply lookup_insert_eq.
  cbn [b_vm with_status] in H.
  destruct (call_state (b_vm blk) _ _) as [e w2|] eqn:E2; [|discriminate].
  destruct (call_state_Done _ _ _ _ _ E2) as (v & V & Hv & HV).
  exists a, blk, v, V. auto.
Qed.

Lemma Reject_Done b r w w' :
  Reject b w = Done r w' ->
  exists a blk v V,
    b = Some a /\ blocks w !! a = Some blk /\ b_vm blk = Some v /\
    vms w !! v = Some V.
Proof.
  intros H. unfold Reject, SetStatus, bind in H.
  destruct (store b _ w) as [[] w1|] eqn:E1; [|discriminate].
  destruct (store_Done _ _ _ _ _ E1) as (a & blk & -> & Hb).
  rewrite (store_eq _ _ _ _ Hb) in E1. injection E1 as <-.
  unfold state_PutBlock, bind, ret in H.
  rewrite !(load_eq a (with_status choices.Rejected blk)) in H
    by apply lookup_insert_eq.
  cbn [b_vm with_status] in H.
  destruct (call_state (b_vm blk) _ _) as [e w2|] eqn:E2; [|discriminate].
  destruct (call_state_Done _ _ _ _ _ E2) as (v & V & Hv & HV).
  exists a, blk, v, V. auto.
Qed.

Lemma Verify_Done now a r w w' :
  Verify now (Some a) w = Done r w' ->
  exists blk v V,
    blocks w !! a = Some blk /\ b_vm blk = Some v /\ vms w !! v = Some V.
Proof.
  intros H. unfold Verify, VM_GetBlock, bind in H.
  unfold load in H. destruct (blocks w !! a) as [blk|] eqn:Hb; [|discriminate].
  destruct (call_state (b_vm blk) _ _) as [e w2|] eqn:E2; [|discriminate].
  destruct (call_state_Done _ _ _ _ _ E2) as (v & V & Hv & HV).
  exists blk, v, V. auto.
Qed.

(** ** Facts about the clock and the store *)

Lemma Time_Unix_Timestamp blk : time.Time_Unix (Timestamp blk) = Tmstmp blk.
Proof.
  unfold Timestamp, time.Time_Unix, time.Unix, time.Second.
  rewrite Z.add_0_r. apply Z.div_mul. discriminate.
Qed.

Lemma Time_Unix_Add_Hour now :
  time.Time_Unix (time.Add now time.Hour) = time.Time_Unix now + 3600.
Proof.
  unfold time.Time_Unix, time.Add, time.Hour, time.Second.
  apply Z.div_add. discriminate.
Qed.

Lemma checks_None now blk parent :
  checks now blk parent = None <->
  Hght blk = (Hght parent + 1) mod 2 ^ 64 /\
  Tmstmp blk >= Tmstmp parent /\
  Tmstmp blk < time.Time_Unix now + 3600.
Proof.
  unfold checks, add64, Height.
  rewrite !Time_Unix_Timestamp, Time_Unix_Add_Hour.
  destruct (Z.eqb_spec ((Hght parent + 1) mod 2 ^ 64) (Hght blk)) as [E|E];
    cbn [negb]; [|split; [discriminate | intros [? _]; congruence]].
  destruct (Z.ltb_spec (Tmstmp blk) (Tmstmp parent));
    [split; [discriminate | lia]|].
  unfold Z.geb.
  destruct (Z.compare_spec (Tmstmp blk) (time.Time_Unix now + 3600));
    split; try discriminate; try lia; auto with zarith.
Qed.

Section StoreFacts.

Import Store.

Lemma flush_app s s' w :
  durable_blocks s' = durable_blocks s -> durable_last s' = durable_last s ->
  staged s' = staged s ++ [w] ->
  flush s' = apply_write (flush s) w.
Proof.
  intros E1 E2 E3. unfold flush. rewrite E1, E2, E3.
  now rewrite fold_left_app.
Qed.

Lemma flush_same s s' :
  durable_blocks s' = durable_blocks s -> durable_last s' = durable_last s ->
  staged s' = staged s ->
  flush s' = flush s.
Proof. intros E1 E2 E3. unfold flush. now rewrite E1, E2, E3. Qed.

(** Without a staged write of the pointer, the view of the pointer is the
    committed one. *)
Lemma flush_last_durable ws d :
  (forall i, WLast i ∉ ws) -> snd (fold_left apply_write ws d) = snd d.
Proof.
  revert d. induction ws as [|w ws IH]; intros d H; [reflexivity|].
  cbn [fold_left]. rewrite IH.
  - destruct w as [i blk|i]; [reflexivity|].
    exfalso. apply (H i). left.
  - intros i Hi. apply (H i). now right.
Qed.

Lemma enter_fields c s f s' :
  enter c s = (f, s') ->
  durable_blocks s' = durable_blocks s /\ durable_last s' = durable_last s /\
  staged s' = staged s /\ journal s' = journal s ++ [c].
Proof.
  unfold enter. destruct (faults s); intros [= <- <-]; cbn; auto.
Qed.

Lemma PutBlock_fields blk s r s' :
  PutBlock blk s = (r, s') ->
  durable_blocks s' = durable_blocks s /\ durable_last s' = durable_last s /\
  journal s' = journal s ++ [CallPutBlock blk] /\
  staged s' = match r with
              | None => staged s ++ [WBlock (b_id blk) blk]
              | Some _ => staged s
              end.
Proof.
  unfold PutBlock.
  destruct (enter _ s) as [[e|] s1] eqn:E;
    apply enter_fields in E as (E1 & E2 & E3 & E4);
    intros [= <- <-]; cbn; rewrite ?E1, ?E2, ?E3, ?E4; auto.
Qed.

Lemma SetLastAccepted_fields i s r s' :
  SetLastAccepted i s = (r, s') ->
  durable_blocks s' = durable_blocks s /\ durable_last s' = durable_last s /\
  journal s' = journal s ++ [CallSetLastAccepted i] /\
  staged s' = match r with
              | None => staged s ++ [WLast i]
              | Some _ => staged s
              end.
Proof.
  unfold SetLastAccepted.
  destruct (enter _ s) as [[e|] s1] eqn:E;
    apply enter_fields in E as (E1 & E2 & E3 & E4);
    intros [= <- <-]; cbn; rewrite ?E1, ?E2, ?E3, ?E4; auto.
Qed.

Lemma Commit_fields s r s' :
  Commit s = (r, s') ->
  journal s' = journal s ++ [CallCommit] /\
  match r with
  | None => durable_blocks s' = fst (flush s) /\
            durable_last s' = snd (flush s) /\ staged s' = []
  | Some _ => durable_blocks s' = durable_blocks s /\
              durable_last s' = durable_last s /\ staged s' = staged s
  end.
Proof.
  unfold Commit.
  destruct (enter _ s) as [[e|] s1] eqn:E;
    apply enter_fields in E as (E1 & E2 & E3 & E4);
    intros [= <- <-]; cbn; rewrite ?E4; auto.
  now rewrite (flush_same s s1).
Qed.

(** A commit does not change what a reader sees. *)
Lemma Commit_view s r s' : Commit s = (r, s') -> flush s' = flush s.
Proof.
  intros H. apply Commit_fields in H as (_ & H).
  destruct r as [e|].
  - destruct H as (E1 & E2 & E3). now apply flush_same.
  - destruct H as (E1 & E2 & E3). unfold flush at 1.
    rewrite E1, E2, E3. cbn. now destruct (flush s).
Qed.

Lemma GetBlock_fields i s r s' :
  GetBlock i s = (r, s') ->
  durable_blocks s' = durable_blocks s /\ durable_last s' = durable_last s /\
  staged s' = staged s /\ journal s' = journal s ++ [CallGetBlock i] /\
  (forall parent, r = inl parent -> view_blocks s !! i = Some parent).
Proof.
  unfold GetBlock.
  destruct (enter _ s) as [[e|] s1] eqn:E;
    apply enter_fields in E as (E1 & E2 & E3 & E4).
  - intros [= <- <-]. repeat split; auto. discriminate.
  - unfold view_blocks. rewrite (flush_same s s1) by assumption.
    destruct (fst (flush s) !! i) as [blk|] eqn:L; intros [= <- <-];
      repeat split; auto; congruence.
Qed.

End StoreFacts.

(** ** Verify *)




(** ** Accept and Reject *)

(** C2.  When [Accept] returns without an error, the store was called three
    times, in this order: [PutBlock] with the block record (status Accepted),
    [SetLastAccepted] with the block's id, [Commit]; the commit left no staged
    write, so that the record and the pointer are committed, and by the same
    commit; the last-accepted pointer is the block's id; the map of verified
    blocks has no entry for the block's id. *)
Theorem Accept_success b w w' :
  Accept b w = Done None w' ->
  exists a blk v V V',
    b = Some a /\ blocks w !! a = Some blk /\ b_vm blk = Some v /\
    vms w !! v = Some V /\ vms w' !! v = Some V' /\
    let blk' := with_status choices.Accepted blk in
    Store.journal (state V') =
      Store.journal (state V) ++
      [Store.CallPutBlock blk'; Store.CallSetLastAccepted (b_id blk);
       Store.CallCommit] /\
    Store.staged (state V') = [] /\
    Store.durable_blocks (state V') =
      <[b_id blk := blk']> (Store.view_blocks (state V)) /\
    Store.durable_last (state V') = Some (b_id blk) /\
    Store.lastAccepted (state V') = Some (b_id blk) /\
    verifiedBlocks V' !! b_id blk = None /\
    blocks w' !! a = Some blk'.
Proof.
  intros H.
  destruct (Accept_Done _ _ _ _ H) as (a & blk & v & V & -> & Hb & Hv & HV).
  rewrite (Accept_eq _ _ _ _ _ Hb Hv HV) in H. cbv zeta in H.
  destruct (Store.PutBlock _ (state V)) as [[e1|] s1] eqn:E1; [discriminate|].
  destruct (Store.SetLastAccepted _ s1) as [[e2|] s2] eqn:E2; [discriminate|].
  destruct (Store.Commit s2) as [r3 s3] eqn:E3. cbn [fst snd] in H.
  injection H as -> <-.
  exists a, blk, v, V, (mkVM (delete (b_id blk) (verifiedBlocks V)) s3).
  do 4 (split; [assumption || reflexivity|]).
  split; [apply lookup_insert_eq|].
  cbv zeta. cbn [state verifiedBlocks settled blocks].
  pose proof (PutBlock_fields _ _ _ _ E1) as (P1 & P2 & P3 & P4).
  pose proof (SetLastAccepted_fields _ _ _ _ E2) as (S1 & S2 & S3 & S4).
  pose proof (Commit_fields _ _ _ E3) as (C0 & C1 & C2 & C3).
  assert (F : Store.flush s2 =
              (<[b_id blk := with_status choices.Accepted blk]>
                 (Store.view_blocks (state V)), Some (b_id blk))).
  { rewrite (flush_app s1 s2 _ S1 S2 S4), (flush_app _ s1 _ P1 P2 P4).
    reflexivity. }
  rewrite F in C1, C2. cbn [fst snd] in C1, C2.
  split; [rewrite C0, S3, P3, <- !app_assoc; reflexivity|].
  split; [assumption|]. split; [assumption|]. split; [assumption|].
  split.
  { unfold Store.lastAccepted, Store.flush. now rewrite C1, C2, C3. }
  split; [apply lookup_delete_eq | apply lookup_insert_eq].
Qed.

Lemma Accept_success_witness :
  exists a blk v V V',
    Some 0%nat = Some a /\ blocks (Sample.world2 []) !! a = Some blk /\
    b_vm blk = Some v /\
    vms (Sample.world2 []) !! v = Some V /\ vms Sample.world3 !! v = Some V' /\
    let blk' := with_status choices.Accepted blk in
    Store.journal (state V') =
      Store.journal (state V) ++
      [Store.CallPutBlock blk'; Store.CallSetLastAccepted (b_id blk);
       Store.CallCommit] /\
    Store.staged (state V') = [] /\
    Store.durable_blocks (state V') =
      <[b_id blk := blk']> (Store.view_blocks (state V)) /\
    Store.durable_last (state V') = Some (b_id blk) /\
    Store.lastAccepted (state V') = Some (b_id blk) /\
    verifiedBlocks V' !! b_id blk = None /\
    blocks Sample.world3 !! a = Some blk'.
Proof.
  apply (Accept_success (Some 0%nat) (Sample.world2 []) Sample.world3).
  vm_compute. reflexivity.
Defined.

(** The blocks that [Accept] and [Reject] leave, whatever they return: the
    block has its new status, the others are as they were. *)
Lemma Accept_blocks b r w w' :
  Accept b w = Done r w' ->
  exists a blk,
    b = Some a /\ blocks w !! a = Some blk /\
    blocks w' = <[a := with_status choices.Accepted blk]> (blocks w).
Proof.
  intros H.
  destruct (Accept_Done _ _ _ _ H) as (a & blk & v & V & -> & Hb & Hv & HV).
  rewrite (Accept_eq _ _ _ _ _ Hb Hv HV) in H. cbv zeta in H.
  exists a, blk. do 2 (split; [assumption || reflexivity|]).
  destruct (Store.PutBlock _ _) as [[e1|] s1]; [now injection H as <- <-|].
  destruct (Store.SetLastAccepted _ _) as [[e2|] s2]; now injection H as <- <-.
Qed.

Lemma Reject_blocks b r w w' :
  Reject b w = Done r w' ->
  exists a blk,
    b = Some a /\ blocks w !! a = Some blk /\
    blocks w' = <[a := with_status choices.Rejected blk]> (blocks w).
Proof.
  intros H.
  destruct (Reject_Done _ _ _ _ H) as (a & blk & v & V & -> & Hb & Hv & HV).
  rewrite (Reject_eq _ _ _ _ _ Hb Hv HV) in H. cbv zeta in H.
  exists a, blk. do 2 (split; [assumption || reflexivity|]).
  destruct (Store.PutBlock _ _) as [[e1|] s1]; now injection H as <- <-.
Qed.

Lemma Verify_blocks now b r w w' :
  Verify now b w = Done r w' -> blocks w' = blocks w.
Proof.
  intros H. destruct b as [a|]; [|now injection H as <- <-].
  destruct (Verify_Done _ _ _ _ _ H) as (blk & v & V & Hb & Hv & HV).
  rewrite (Verify_eq _ _ _ _ _ _ Hb Hv HV) in H.
  destruct (Store.GetBlock _ _) as [[parent|e] s1];
    [destruct (checks _ _ _)|]; now injection H as <- <-.
Qed.

(** C5.  [Reject], whatever it returns, makes no call of [SetLastAccepted]:
    the calls it adds to the journal of its store are other calls, and the
    other stores are as they were.  The last-accepted pointer that the store
    shows is the one of before the call, and so is the committed pointer when
    no write of the pointer was staged.  When [Reject] returns without an
    error, the map of verified blocks has no entry for the block's id. *)
Theorem Reject_keeps_last_accepted b r w w' :
  Reject b w = Done r w' ->
  exists a blk v V V',
    b = Some a /\ blocks w !! a = Some blk /\ b_vm blk = Some v /\
    vms w !! v = Some V /\ vms w' !! v = Some V' /\
    (forall v', v' <> v -> vms w' !! v' = vms w !! v') /\
    (exists calls,
       Store.journal (state V') = Store.journal (state V) ++ calls /\
       forall i, Store.CallSetLastAccepted i ∉ calls) /\
    Store.lastAccepted (state V') = Store.lastAccepted (state V) /\
    ((forall i, Store.WLast i ∉ Store.staged (state V)) ->
     Store.durable_last (state V') = Store.durable_last (state V)) /\
    (r = None -> verifiedBlocks V' !! b_id blk = None).
Proof.
  intros H.
  destruct (Reject_Done _ _ _ _ H) as (a & blk & v & V & -> & Hb & Hv & HV).
  rewrite (Reject_eq _ _ _ _ _ Hb Hv HV) in H. cbv zeta in H.
  destruct (Store.PutBlock _ (state V)) as [[e1|] s1] eqn:E1.
  - injection H as <- <-.
    exists a, blk, v, V, (mkVM (verifiedBlocks V) s1).
    do 4 (split; [assumption || reflexivity|]).
    split; [apply lookup_insert_eq|].
    split; [intros v' Hne; apply lookup_insert_ne; congruence|].
    cbn [state verifiedBlocks].
    pose proof (PutBlock_fields _ _ _ _ E1) as (P1 & P2 & P3 & P4).
    split; [eexists; split; [exact P3|]|].
    { intros i Hi. apply list_elem_of_singleton in Hi. discriminate. }
    split; [unfold Store.lastAccepted; now rewrite (flush_same (state V) s1)|].
    split; [intros _; assumption | discriminate].
  - destruct (Store.Commit s1) as [r3 s3] eqn:E3. cbn [fst snd] in H.
    injection H as <- <-.
    exists a, blk, v, V, (mkVM (delete (b_id blk) (verifiedBlocks V)) s3).
    do 4 (split; [assumption || reflexivity|]).
    split; [apply lookup_insert_eq|].
    split; [intros v' Hne; apply lookup_insert_ne; congruence|].
    cbn [state verifiedBlocks].
    pose proof (PutBlock_fields _ _ _ _ E1) as (P1 & P2 & P3 & P4).
    pose proof (Commit_fields _ _ _ E3) as (C0 & C1).
    assert (F : Store.lastAccepted s3 = Store.lastAccepted (state V)).
    { unfold Store.lastAccepted.
      rewrite (Commit_view _ _ _ E3), (flush_app _ s1 _ P1 P2 P4).
      reflexivity. }
    split.
    { exists [Store.CallPutBlock (with_status choices.Rejected blk);
              Store.CallCommit].
      split; [rewrite C0, P3, <- app_assoc; reflexivity|].
      intros i Hi. apply elem_of_cons in Hi as [Hi|Hi]; [discriminate|].
      apply list_elem_of_singleton in Hi. discriminate. }
    split; [assumption|].
    split; [|intros _; apply lookup_delete_eq].
    intros Hns. destruct r3 as [e|].
    + destruct C1 as (_ & -> & _). assumption.
    + destruct C1 as (_ & -> & _).
      rewrite (flush_app _ s1 _ P1 P2 P4). cbn [Store.apply_write snd].
      apply (flush_last_durable _ (_, _) Hns).
Qed.

Lemma Reject_keeps_last_accepted_witness :
  exists a blk v V V',
    Some 0%nat = Some a /\ blocks (Sample.world2 []) !! a = Some blk /\
    b_vm blk = Some v /\
    vms (Sample.world2 []) !! v = Some V /\ vms Sample.world4 !! v = Some V' /\
    (forall v', v' <> v -> vms Sample.world4 !! v' = vms (Sample.world2 []) !! v') /\
    (exists calls,
       Store.journal (state V') = Store.journal (state V) ++ calls /\
       forall i, Store.CallSetLastAccepted i ∉ calls) /\
    Store.lastAccepted (state V') = Store.lastAccepted (state V) /\
    ((forall i, Store.WLast i ∉ Store.staged (state V)) ->
     Store.durable_last (state V') = Store.durable_last (state V)) /\
    (@None error = None -> verifiedBlocks V' !! b_id blk = None).
Proof.
  apply (Reject_keeps_last_accepted (Some 0%nat) None (Sample.world2 [])
           Sample.world4).
  vm_compute. reflexivity.
Defined.

(** C8.  When [Accept] returns an error, the block already has status
    Accepted in memory, and when [Reject] returns an error, status Rejected:
    the status written at the start of the call stays. *)
Theorem status_set_when_store_fails b e w w' :
  (Accept b w = Done (Some e) w' ->
   exists a blk,
     b = Some a /\ blocks w !! a = Some blk /\
     blocks w' !! a = Some (with_status choices.Accepted blk) /\
     Status (with_status choices.Accepted blk) = choices.Accepted) /\
  (Reject b w = Done (Some e) w' ->
   exists a blk,
     b = Some a /\ blocks w !! a = Some blk /\
     blocks w' !! a = Some (with_status choices.Rejected blk) /\
     Status (with_status choices.Rejected blk) = choices.Rejected).
Proof.
  split; intros H.
  - destruct (Accept_blocks _ _ _ _ H) as (a & blk & -> & Hb & ->).
    exists a, blk. repeat split; auto. apply lookup_insert_eq.
  - destruct (Reject_blocks _ _ _ _ H) as (a & blk & -> & Hb & ->).
    exists a, blk. repeat split; auto. apply lookup_insert_eq.
Qed.

Lemma status_set_when_store_fails_witness :
  (exists a blk,
     Some 0%nat = Some a /\
     blocks (Sample.world2 [Some (errStore 1)]) !! a = Some blk /\
     blocks Sample.world_failed_Accept !! a =
       Some (with_status choices.Accepted blk) /\
     Status (with_status choices.Accepted blk) = choices.Accepted) /\
  (exists a blk,
     Some 0%nat = Some a /\
     blocks (Sample.world2 [Some (errStore 1)]) !! a = Some blk /\
     blocks Sample.world_failed_Reject !! a =
       Some (with_status choices.Rejected blk) /\
     Status (with_status choices.Rejected blk) = choices.Rejected).
Proof.
  split.
  - apply (proj1 (status_set_when_store_fails (Some 0%nat) (errStore 1)
                    (Sample.world2 [Some (errStore 1)])
                    Sample.world_failed_Accept)).
    vm_compute. reflexivity.
  - apply (proj2 (status_set_when_store_fails (Some 0%nat) (errStore 1)
                    (Sample.world2 [Some (errStore 1)])
                    Sample.world_failed_Reject)).
    vm_compute. reflexivity.
Defined.

(** ** The status of a block *)

(** C4 (as amended).  Once the status of a block is Accepted or Rejected,
    [Verify], on whatever block, leaves the block as it is; [Accept] and
    [Reject] on another block leave its status as it is; [Accept] leaves an
    Accepted block Accepted and [Reject] a Rejected block Rejected. *)
Theorem decided_status_kept a blk w :
  blocks w !! a = Some blk -> choices.Decided (b_status blk) = true ->
  (forall now b r w',
     Verify now b w = Done r w' -> blocks w' !! a = Some blk) /\
  (forall b r w',
     Accept b w = Done r w' ->
     b <> Some a \/ b_status blk = choices.Accepted ->
     Status <$> blocks w' !! a = Some (b_status blk)) /\
  (forall b r w',
     Reject b w = Done r w' ->
     b <> Some a \/ b_status blk = choices.Rejected ->
     Status <$> blocks w' !! a = Some (b_status blk)).
Proof.
  intros Hb _. split; [|split].
  - intros now b r w' H. now rewrite (Verify_blocks _ _ _ _ _ H).
  - intros b r w' H Hor.
    destruct (Accept_blocks _ _ _ _ H) as (a' & blk' & -> & Hb' & ->).
    destruct (decide (a' = a)) as [->|Hne].
    + rewrite lookup_insert_eq. cbn.
      destruct Hor as [Hor|Hor]; [congruence|].
      rewrite Hb in Hb'. injection Hb' as <-. now rewrite Hor.
    + rewrite lookup_insert_ne, Hb by assumption. reflexivity.
  - intros b r w' H Hor.
    destruct (Reject_blocks _ _ _ _ H) as (a' & blk' & -> & Hb' & ->).
    destruct (decide (a' = a)) as [->|Hne].
    + rewrite lookup_insert_eq. cbn.
      destruct Hor as [Hor|Hor]; [congruence|].
      rewrite Hb in Hb'. injection Hb' as <-. now rewrite Hor.
    + rewrite lookup_insert_ne, Hb by assumption. reflexivity.
Qed.

Lemma decided_status_kept_witness :
  (forall now b r w',
     Verify now b Sample.world3 = Done r w' ->
     blocks w' !! 0%nat = Some (with_status choices.Accepted Sample.child1)) /\
  (forall b r w',
     Accept b Sample.world3 = Done r w' ->
     b <> Some 0%nat \/
     b_status (with_status choices.Accepted Sample.child1) = choices.Accepted ->
     Status <$> blocks w' !! 0%nat =
     Some (b_status (with_status choices.Accepted Sample.child1))) /\
  (forall b r w',
     Reject b Sample.world3 = Done r w' ->
     b <> Some 0%nat \/
     b_status (with_status choices.Accepted Sample.child1) = choices.Rejected ->
     Status <$> blocks w' !! 0%nat =
     Some (b_status (with_status choices.Accepted Sample.child1))).
Proof.
  apply (decided_status_kept 0%nat
           (with_status choices.Accepted Sample.child1) Sample.world3);
    reflexivity.
Defined.

(** The claim of C4 fails: a block that was rejected is accepted afterwards,
    and its status goes from Rejected to Accepted. *)
Lemma Accept_after_Reject_changes_status :
  Reject (Some 0%nat) (Sample.world2 []) = Done None Sample.world4 /\
  Status <$> blocks Sample.world4 !! 0%nat = Some choices.Rejected /\
  exists w,
    Accept (Some 0%nat) Sample.world4 = Done None w /\
    Status <$> blocks w !! 0%nat = Some choices.Accepted.
Proof.
  split; [vm_compute; reflexivity|]. split; [reflexivity|].
  eexists. split; [vm_compute; reflexivity|]. reflexivity.
Qed.

(** ** Panics *)




(** So does [Reject] on a nil block, and so do all three methods on a block
    that [newTimeBlock] made and [Initialize] never bound to a VM. *)
Example Reject_nil_panics : Reject None (Sample.world1 []) = Panicked.
Proof. reflexivity. Qed.

Example unbound_block_panics :
  blocks (Sample.world0 []) !! 0%nat = Some Sample.child /\
  Verify Sample.now0 (Some 0%nat) (Sample.world0 []) = Panicked /\
  Accept (Some 0%nat) (Sample.world0 []) = Panicked /\
  Reject (Some 0%nat) (Sample.world0 []) = Panicked.
Proof. repeat split; reflexivity. Qed.

(** ** The map of verified blocks *)

(** C6.  When [Verify] returns without an error, the map of verified blocks
    of the block's VM is the former map with the block under its id, in place
    of whatever was there.  A second call that returns without an error has
    fetched the parent again and passed the checks again, with the clock of
    that call, and leaves the map, and the blocks, as the first call left
    them. *)
Theorem Verify_registers now1 a w w1 :
  Verify now1 (Some a) w = Done None w1 ->
  exists blk v V V1,
    blocks w !! a = Some blk /\ b_vm blk = Some v /\
    vms w !! v = Some V /\ vms w1 !! v = Some V1 /\
    verifiedBlocks V1 = <[b_id blk := a]> (verifiedBlocks V) /\
    verifiedBlocks V1 !! b_id blk = Some a /\
    blocks w1 = blocks w /\
    forall now2 w2,
      Verify now2 (Some a) w1 = Done None w2 ->
      exists V2 p,
        vms w2 !! v = Some V2 /\
        verifiedBlocks V2 = verifiedBlocks V1 /\
        blocks w2 = blocks w1 /\
        Store.journal (state V2) =
          Store.journal (state V1) ++ [Store.CallGetBlock (PrntID blk)] /\
        Store.view_blocks (state V1) !! PrntID blk = Some p /\
        checks now2 blk p = None.
Proof.
  intros H.
  destruct (Verify_Done _ _ _ _ _ H) as (blk & v & V & Hb & Hv & HV).
  rewrite (Verify_eq _ _ _ _ _ _ Hb Hv HV) in H.
  destruct (Store.GetBlock _ (state V)) as [[p1|e1] s1] eqn:G1; [|discriminate].
  destruct (checks now1 blk p1) eqn:K1; [discriminate|].
  injection H as <-.
  exists blk, v, V, (mkVM (<[b_id blk := a]> (verifiedBlocks V)) s1).
  do 3 (split; [assumption|]).
  split; [apply lookup_insert_eq|]. split; [reflexivity|].
  split; [apply lookup_insert_eq|]. split; [reflexivity|].
  intros now2 w2 H2.
  rewrite (Verify_eq now2 a blk v
             (mkVM (<[b_id blk := a]> (verifiedBlocks V)) s1)) in H2;
    [|assumption .. | apply lookup_insert_eq].
  cbn [state verifiedBlocks] in H2.
  destruct (Store.GetBlock _ s1) as [[p2|e2] s2] eqn:G2; [|discriminate].
  destruct (checks now2 blk p2) eqn:K2; [discriminate|].
  injection H2 as <-.
  apply GetBlock_fields in G2 as (_ & _ & _ & J & P).
  eexists _, p2. split; [apply lookup_insert_eq|].
  cbn [state verifiedBlocks verified blocks].
  rewrite insert_insert_eq. repeat split; auto.
Qed.

Lemma Verify_registers_witness :
  exists blk v V V1,
    blocks (Sample.world1 [None]) !! 0%nat = Some blk /\ b_vm blk = Some v /\
    vms (Sample.world1 [None]) !! v = Some V /\
    vms (Sample.world2 []) !! v = Some V1 /\
    verifiedBlocks V1 = <[b_id blk := 0%nat]> (verifiedBlocks V) /\
    verifiedBlocks V1 !! b_id blk = Some 0%nat /\
    blocks (Sample.world2 []) = blocks (Sample.world1 [None]) /\
    forall now2 w2,
      Verify now2 (Some 0%nat) (Sample.world2 []) = Done None w2 ->
      exists V2 p,
        vms w2 !! v = Some V2 /\
        verifiedBlocks V2 = verifiedBlocks V1 /\
        blocks w2 = blocks (Sample.world2 []) /\
        Store.journal (state V2) =
          Store.journal (state V1) ++ [Store.CallGetBlock (PrntID blk)] /\
        Store.view_blocks (state V1) !! PrntID blk = Some p /\
        checks now2 blk p = None.
Proof.
  apply (Verify_registers Sample.now0 0%nat (Sample.world1 [None])
           (Sample.world2 [])).
  vm_compute. reflexivity.
Defined.

(** The checks are run again: the block verified above is refused by a second
    call when the clock has been set back by more than an hour before the
    block's timestamp. *)
Example Verify_again_too_late :
  exists w,
    Verify (time.Unix (-3000) 0) (Some 0%nat) (Sample.world2 [])
    = Done (Some errTimestampTooLate) w.
Proof. eexists. vm_compute. reflexivity. Qed.

(** ** Initialize *)

Section InitializeFacts.

Variable ComputeHash256Array : list byte -> ids.ID.

Lemma Initialize_Done b bytes status vm r w w' :
  Initialize ComputeHash256Array b bytes status vm w = Done r w' ->
  exists a blk,
    b = Some a /\ blocks w !! a = Some blk /\
    w' = mkWorld (<[a := initialized ComputeHash256Array bytes status vm blk]>
                    (blocks w)) (vms w).
Proof.
  intros H. destruct b as [a|]; [|discriminate].
  destruct (blocks w !! a) as [blk|] eqn:Hb.
  - rewrite (Initialize_eq _ _ _ _ _ _ _ Hb) in H. injection H as <-. eauto.
  - unfold Initialize, bind, store in H. now rewrite Hb in H.
Qed.

(** C7.  The id that [Initialize] leaves is the hash of the bytes given:
    two calls with the same bytes, on whatever blocks, in whatever worlds,
    with whatever status and VM, leave the same id. *)
Theorem Initialize_id_of_bytes bytes b1 b2 status1 status2 vm1 vm2
    w1 w2 w1' w2' :
  Initialize ComputeHash256Array b1 bytes status1 vm1 w1 = Done tt w1' ->
  Initialize ComputeHash256Array b2 bytes status2 vm2 w2 = Done tt w2' ->
  exists a1 a2 blk1 blk2,
    b1 = Some a1 /\ b2 = Some a2 /\
    blocks w1' !! a1 = Some blk1 /\ blocks w2' !! a2 = Some blk2 /\
    b_id blk1 = ComputeHash256Array bytes /\
    b_id blk2 = b_id blk1.
Proof.
  intros H1 H2.
  destruct (Initialize_Done _ _ _ _ _ _ _ H1) as (a1 & blk1 & -> & _ & ->).
  destruct (Initialize_Done _ _ _ _ _ _ _ H2) as (a2 & blk2 & -> & _ & ->).
  exists a1, a2. eexists _, _. do 2 (split; [reflexivity|]).
  split; [apply lookup_insert_eq|]. split; [apply lookup_insert_eq|].
  split; reflexivity.
Qed.

(** C10.  [Initialize] makes no check of the bytes against the fields of
    the block: on two blocks with whatever fields it returns, leaves both
    with the hash of the bytes as their id, and leaves the parent id, the
    height, the timestamp and the data as they were. *)
Theorem Initialize_ignores_fields bytes a1 a2 blk1 blk2 status1 status2
    vm1 vm2 w :
  a1 <> a2 -> blocks w !! a1 = Some blk1 -> blocks w !! a2 = Some blk2 ->
  exists w1 w2 blk1' blk2',
    Initialize ComputeHash256Array (Some a1) bytes status1 vm1 w = Done tt w1 /\
    Initialize ComputeHash256Array (Some a2) bytes status2 vm2 w1 = Done tt w2 /\
    blocks w2 !! a1 = Some blk1' /\ blocks w2 !! a2 = Some blk2' /\
    b_id blk1' = ComputeHash256Array bytes /\
    b_id blk2' = ComputeHash256Array bytes /\
    (PrntID blk1', Hght blk1', Tmstmp blk1', Dt blk1') =
      (PrntID blk1, Hght blk1, Tmstmp blk1, Dt blk1) /\
    (PrntID blk2', Hght blk2', Tmstmp blk2', Dt blk2') =
      (PrntID blk2, Hght blk2, Tmstmp blk2, Dt blk2).
Proof.
  intros Hne Hb1 Hb2.
  eexists _, _, _, _.
  split; [apply (Initialize_eq _ _ _ _ _ _ _ Hb1)|].
  split.
  { apply Initialize_eq. cbn [blocks].
    rewrite lookup_insert_ne by assumption. exact Hb2. }
  cbn [blocks].
  split; [rewrite lookup_insert_ne by congruence; apply lookup_insert_eq|].
  split; [apply lookup_insert_eq|].
  repeat split.
Qed.

End InitializeFacts.

Lemma Initialize_id_of_bytes_witness :
  exists a1 a2 blk1 blk2,
    Some 0%nat = Some a1 /\ Some 1%nat = Some a2 /\
    blocks (Sample.world1 []) !! a1 = Some blk1 /\
    blocks Sample.world_twins !! a2 = Some blk2 /\
    b_id blk1 = Sample.hash Sample.bytes0 /\
    b_id blk2 = b_id blk1.
Proof.
  apply (Initialize_id_of_bytes Sample.hash Sample.bytes0
           (Some 0%nat) (Some 1%nat) choices.Processing choices.Unknown
           (Some 0%nat) None (Sample.world0 []) (Sample.world1 [])).
  - vm_compute. reflexivity.
  - vm_compute. reflexivity.
Defined.

Lemma Initialize_ignores_fields_witness :
  exists w1 w2 blk1' blk2',
    Initialize Sample.hash (Some 0%nat) Sample.bytes0 choices.Processing
               (Some 0%nat) (Sample.world0 []) = Done tt w1 /\
    Initialize Sample.hash (Some 1%nat) Sample.bytes0 choices.Unknown None w1
      = Done tt w2 /\
    blocks w2 !! 0%nat = Some blk1' /\ blocks w2 !! 1%nat = Some blk2' /\
    b_id blk1' = Sample.hash Sample.bytes0 /\
    b_id blk2' = Sample.hash Sample.bytes0 /\
    (PrntID blk1', Hght blk1', Tmstmp blk1', Dt blk1') =
      (PrntID Sample.child, Hght Sample.child, Tmstmp Sample.child,
       Dt Sample.child) /\
    (PrntID blk2', Hght blk2', Tmstmp blk2', Dt blk2') =
      (PrntID Sample.other, Hght Sample.other, Tmstmp Sample.other,
       Dt Sample.other).
Proof.
  apply (Initialize_ignores_fields Sample.hash Sample.bytes0 0%nat 1%nat
           Sample.child Sample.other choices.Processing choices.Unknown
           (Some 0%nat) None (Sample.world0 []));
    [discriminate | reflexivity | reflexivity].
Defined.

(** ** The invariant of the map of verified blocks *)






Section Invariant.

Variable ComputeHash256Array : list byte -> ids.ID.



End Invariant.





(** The other ways in which an entry gets a decided status, which the
    discipline of the calls excludes: a block that is initialized with status
    Accepted and verified, a block that is verified again after it was
    accepted, and a block that is initialized again while it is in the map. *)
Example pending_decided_after_Initialize_Accepted :
  exists w1 w2,
    Initialize Sample.hash (Some 0%nat) Sample.bytes0 choices.Accepted
               (Some 0%nat) (Sample.world0 []) = Done tt w1 /\
    Verify Sample.now0 (Some 0%nat) w1 = Done None w2 /\
    ~ pending_undecided w2.
Proof.
  eexists _, _. split; [vm_compute; reflexivity|].
  split; [vm_compute; reflexivity|].
  intros H.
  specialize (H 0%nat
                (mkVM {[ 101 := 0%nat ]}
                      (Store.mk {[ 1 := Sample.genesis ]} (Some 1) []
                         [Store.CallGetBlock 1] []))
                101 0%nat
                (initialized Sample.hash Sample.bytes0 choices.Accepted
                             (Some 0%nat) Sample.child)).
  discriminate H; vm_compute; reflexivity.
Qed.

Example pending_decided_after_Verify_again :
  exists w,
    Verify Sample.now0 (Some 0%nat) Sample.world3 = Done None w /\
    ~ pending_undecided w.
Proof.
  eexists. split; [vm_compute; reflexivity|].
  intros H.
  specialize (H 0%nat
                (mkVM {[ 101 := 0%nat ]}
                      (Store.mk
                         {[ 1 := Sample.genesis;
                            101 := with_status choices.Accepted Sample.child1 ]}
                         (Some 101) []
                         [Store.CallGetBlock 1;
                          Store.CallPutBlock
                            (with_status choices.Accepted Sample.child1);
                          Store.CallSetLastAccepted 101; Store.CallCommit;
                          Store.CallGetBlock 1] []))
                101 0%nat (with_status choices.Accepted Sample.child1)).
  discriminate H; vm_compute; reflexivity.
Qed.

Example pending_decided_after_Initialize_again :
  exists w,
    Initialize Sample.hash (Some 0%nat) Sample.bytes0 choices.Rejected
               (Some 0%nat) (Sample.world2 []) = Done tt w /\
    ~ pending_undecided w.
Proof.
  eexists. split; [vm_compute; reflexivity|].
  intros H.
  specialize (H 0%nat
                (mkVM {[ 101 := 0%nat ]}
                      (Store.mk {[ 1 := Sample.genesis ]} (Some 1) []
                         [Store.CallGetBlock 1] []))
                101 0%nat (with_status choices.Rejected Sample.child1)).
  discriminate H; vm_compute; reflexivity.
Qed.

(** * Further properties of block.go *)

(** ** Verify: errors and effects *)

Lemma checks_error now blk parent e :
  checks now blk parent = Some e ->
  (e = errHeight (add64 (Hght parent) 1) (Hght blk) /\
   add64 (Hght parent) 1 <> Hght blk) \/
  e = errTimestampTooEarly \/ e = errTimestampTooLate.
Proof.
  unfold checks, Height.
  destruct (Z.eqb_spec (add64 (Hght parent) 1) (Hght blk)); cbn [negb].
  - destruct (_ <? _); [intros [= <-]; auto|].
    destruct (_ >=? _); [intros [= <-]; auto|discriminate].
  - intros [= <-]. auto.
Qed.


(** A method called on a block whose VM is nil, or not allocated, panics. *)
Lemma call_state_unbound {A} blk (op : Store.t -> A * Store.t) w w1 :
  unbound blk w -> vms w1 = vms w -> call_state (b_vm blk) op w1 = Panicked.
Proof.
  unfold unbound, call_state, bind, load_vm. intros H E.
  destruct (b_vm blk) as [v|]; [|reflexivity]. now rewrite E, H.
Qed.

Lemma Verify_unbound now a blk w :
  blocks w !! a = Some blk -> unbound blk w ->
  Verify now (Some a) w = Panicked.
Proof.
  intros Hb Hu. unfold Verify, VM_GetBlock, bind.
  now rewrite (load_eq _ _ _ Hb), (call_state_unbound blk _ w w Hu eq_refl).
Qed.



Lemma bound_or_unbound blk w :
  unbound blk w \/ exists v V, b_vm blk = Some v /\ vms w !! v = Some V.
Proof.
  unfold unbound. destruct (b_vm blk) as [v|]; [|now left].
  destruct (vms w !! v) as [V|] eqn:E; [right; eauto | now left].
Qed.



(** X2.  A [Verify] that returns an error registers nothing: the blocks and
    the maps of verified blocks of all VMs are as they were. *)
Theorem Verify_error_registers_nothing now b e w w' :
  Verify now b w = Done (Some e) w' ->
  blocks w' = blocks w /\
  forall v, verifiedBlocks <$> vms w' !! v = verifiedBlocks <$> vms w !! v.
Proof.
  intros H. split; [exact (Verify_blocks _ _ _ _ _ H)|].
  destruct b as [a|]; [|now injection H as _ <-].
  destruct (Verify_Done _ _ _ _ _ H) as (blk & v & V & Hb & Hv & HV).
  rewrite (Verify_eq _ _ _ _ _ _ Hb Hv HV) in H.
  assert (Hsame : forall s1 v',
            verifiedBlocks <$>
              vms (verified v (mkVM (verifiedBlocks V) s1) w) !! v' =
            verifiedBlocks <$> vms w !! v').
  { intros s1 v'. cbn [verified vms].
    destruct (decide (v' = v)) as [->|Hne].
    - now rewrite lookup_insert_eq, HV.
    - now rewrite lookup_insert_ne by congruence. }
  destruct (Store.GetBlock _ _) as [[parent|e1] s1];
    [destruct (checks _ _ _); [|discriminate]|];
    injection H as _ <-; apply Hsame.
Qed.

Lemma Verify_error_registers_nothing_witness :
  blocks (SampleChain.verified_at 1%nat SampleChain.world_orphan) =
    blocks SampleChain.world_orphan /\
  forall v,
    verifiedBlocks <$>
      vms (SampleChain.verified_at 1%nat SampleChain.world_orphan) !! v =
    verifiedBlocks <$> vms SampleChain.world_orphan !! v.
Proof.
  apply (Verify_error_registers_nothing Sample.now0 (Some 1%nat)
           errDatabaseGet SampleChain.world_orphan).
  vm_compute. reflexivity.
Defined.



(** X4.  The errors of [Verify] are its own: the nil block, exactly when the
    receiver is nil; the failed lookup; a height error that carries two
    different heights, the second of which is the block's; too early; too
    late.  An error of the store is never passed on. *)
Theorem Verify_errors now b e w w' :
  Verify now b w = Done (Some e) w' ->
  (e = errBlockNil <-> b = None) /\
  (e = errBlockNil \/ e = errDatabaseGet \/
   (exists a blk expected,
      b = Some a /\ blocks w !! a = Some blk /\
      e = errHeight expected (Hght blk) /\ expected <> Hght blk) \/
   e = errTimestampTooEarly \/ e = errTimestampTooLate).
Proof.
  intros H. destruct b as [a|].
  2: { injection H as <- <-. split; [tauto | auto]. }
  destruct (Verify_Done _ _ _ _ _ H) as (blk & v & V & Hb & Hv & HV).
  rewrite (Verify_eq _ _ _ _ _ _ Hb Hv HV) in H.
  destruct (Store.GetBlock _ _) as [[parent|e1] s1].
  - destruct (checks now blk parent) as [e2|] eqn:K; [|discriminate].
    injection H as <- <-.
    apply checks_error in K as [ [ -> Hne ] | [ -> | -> ] ].
    + split; [split; discriminate|].
      right. right. left. exists a, blk, (add64 (Hght parent) 1). auto.
    + split; [split; discriminate | auto].
    + split; [split; discriminate | auto 6].
  - injection H as <- <-. split; [split; discriminate | auto].
Qed.

Lemma Verify_errors_witness :
  (errDatabaseGet = errBlockNil <-> Some 1%nat = None) /\
  (errDatabaseGet = errBlockNil \/ errDatabaseGet = errDatabaseGet \/
   (exists a blk expected,
      Some 1%nat = Some a /\ blocks SampleChain.world_orphan !! a = Some blk /\
      errDatabaseGet = errHeight expected (Hght blk) /\
      expected <> Hght blk) \/
   errDatabaseGet = errTimestampTooEarly \/
   errDatabaseGet = errTimestampTooLate).
Proof.
  apply (Verify_errors Sample.now0 (Some 1%nat) errDatabaseGet
           SampleChain.world_orphan
           (SampleChain.verified_at 1%nat SampleChain.world_orphan)).
  vm_compute. reflexivity.
Defined.

(** X5.  [Verify] does not look at the status of the block: with another
    status in place of the block's, it returns the same result and leaves the
    same VMs, or panics as well. *)
Theorem Verify_ignores_status now a blk s w :
  blocks w !! a = Some blk ->
  match Verify now (Some a) w,
        Verify now (Some a)
               (mkWorld (<[a := with_status s blk]> (blocks w)) (vms w)) with
  | Done r w', Done r2 w2 => r = r2 /\ vms w' = vms w2
  | Panicked, Panicked => True
  | _, _ => False
  end.
Proof.
  intros Hb.
  set (ws := mkWorld _ _).
  assert (Hbs : blocks ws !! a = Some (with_status s blk))
    by apply lookup_insert_eq.
  destruct (bound_or_unbound blk w) as [Hu|(v & V & Hv & HV)].
  - rewrite (Verify_unbound now _ _ _ Hb Hu).
    now rewrite (Verify_unbound now _ _ _ Hbs Hu).
  - rewrite (Verify_eq now _ _ _ _ _ Hb Hv HV).
    rewrite (Verify_eq now a (with_status s blk) v V ws Hbs Hv HV).
    cbn [PrntID b_id with_status].
    destruct (Store.GetBlock _ _) as [[parent|e1] s1]; [|now split].
    change (checks now (with_status s blk) parent) with (checks now blk parent).
    destruct (checks now blk parent); now split.
Qed.

Lemma Verify_ignores_status_witness :
  match Verify Sample.now0 (Some 0%nat) (Sample.world1 []),
        Verify Sample.now0 (Some 0%nat)
               (mkWorld (<[0%nat := with_status choices.Rejected Sample.child1]>
                           (blocks (Sample.world1 [])))
                        (vms (Sample.world1 []))) with
  | Done r w', Done r2 w2 => r = r2 /\ vms w' = vms w2
  | Panicked, Panicked => True
  | _, _ => False
  end.
Proof.
  apply (Verify_ignores_status Sample.now0 0%nat Sample.child1
           choices.Rejected (Sample.world1 [])).
  reflexivity.
Defined.

(** X6.  When the parent's height is below the greatest height of uint64, a
    block that [Verify] lets through has the parent's height plus one, as a
    number, and a timestamp that is not before the parent's and is before the
    clock plus one hour. *)
Theorem Verify_links_heights now a blk v V parent s1 w w' :
  blocks w !! a = Some blk -> b_vm blk = Some v -> vms w !! v = Some V ->
  Store.GetBlock (PrntID blk) (state V) = (inl parent, s1) ->
  0 <= Hght parent < 2 ^ 64 - 1 ->
  Verify now (Some a) w = Done None w' ->
  Hght blk = Hght parent + 1 /\
  Tmstmp parent <= Tmstmp blk /\
  Timestamp blk < time.Add now time.Hour.
Proof.
  intros Hb Hv HV HP Hrange H.
  rewrite (Verify_eq now _ _ _ _ _ Hb Hv HV), HP in H.
  destruct (checks now blk parent) eqn:K; [discriminate|].
  apply checks_None in K as (K1 & K2 & K3).
  rewrite Z.mod_small in K1 by lia.
  split; [assumption|]. split; [lia|].
  unfold Timestamp, time.Unix, time.Add, time.Hour, time.Time_Unix,
    time.Second in *.
  pose proof (Z.mul_div_le now 1000000000). lia.
Qed.

Lemma Verify_links_heights_witness :
  Hght Sample.child1 = Hght Sample.genesis + 1 /\
  Tmstmp Sample.genesis <= Tmstmp Sample.child1 /\
  Timestamp Sample.child1 < time.Add Sample.now0 time.Hour.
Proof.
  apply (Verify_links_heights Sample.now0 0%nat Sample.child1 0%nat
           (mkVM ∅ (Sample.store0 [None])) Sample.genesis
           (snd (Store.GetBlock 1 (Sample.store0 [None])))
           (Sample.world1 [None]) (Sample.world2 []));
    try reflexivity.
  vm_compute. split; [discriminate | reflexivity].
Defined.

(** ** Accept and Reject: failures, frame and repetition *)

Section StoreFaults.

Import Store.

Lemma enter_faults c s f s' :
  enter c s = (f, s') ->
  (forall e, f = Some e -> Some e ∈ faults s) /\
  (forall x, x ∈ faults s' -> x ∈ faults s).
Proof.
  unfold enter. destruct (faults s) as [|f0 fs]; intros [= <- <-]; cbn.
  - split; [discriminate | auto].
  - split; [intros e ->; left | intros x Hx; now right].
Qed.

Lemma PutBlock_faults blk s r s' :
  PutBlock blk s = (r, s') ->
  (forall e, r = Some e -> Some e ∈ faults s) /\
  (forall x, x ∈ faults s' -> x ∈ faults s).
Proof.
  unfold PutBlock. destruct (enter _ s) as [[e|] s1] eqn:E;
    apply enter_faults in E as (E1 & E2); intros [= <- <-]; cbn; auto.
Qed.

Lemma SetLastAccepted_faults i s r s' :
  SetLastAccepted i s = (r, s') ->
  (forall e, r = Some e -> Some e ∈ faults s) /\
  (forall x, x ∈ faults s' -> x ∈ faults s).
Proof.
  unfold SetLastAccepted. destruct (enter _ s) as [[e|] s1] eqn:E;
    apply enter_faults in E as (E1 & E2); intros [= <- <-]; cbn; auto.
Qed.

Lemma Commit_faults s r s' :
  Commit s = (r, s') ->
  (forall e, r = Some e -> Some e ∈ faults s) /\
  (forall x, x ∈ faults s' -> x ∈ faults s).
Proof.
  unfold Commit. destruct (enter _ s) as [[e|] s1] eqn:E;
    apply enter_faults in E as (E1 & E2); intros [= <- <-]; cbn; auto.
Qed.

End StoreFaults.

(** X7.  An [Accept] that returns an error has committed nothing.  It stopped
    at the first call of the store that failed: after [PutBlock], with
    nothing staged and the map of verified blocks as it was; after
    [SetLastAccepted], with the record staged and the map as it was; or after
    [Commit], with the record and the pointer staged and the block's id
    already deleted from the map. *)
Theorem Accept_failure_anatomy b e w w' :
  Accept b w = Done (Some e) w' ->
  exists a blk v V V',
    b = Some a /\ blocks w !! a = Some blk /\ b_vm blk = Some v /\
    vms w !! v = Some V /\ vms w' !! v = Some V' /\
    Store.durable_blocks (state V') = Store.durable_blocks (state V) /\
    Store.durable_last (state V') = Store.durable_last (state V) /\
    let blk' := with_status choices.Accepted blk in
    let put := Store.CallPutBlock blk' in
    let set := Store.CallSetLastAccepted (b_id blk) in
    (Store.journal (state V') = Store.journal (state V) ++ [put] /\
     Store.staged (state V') = Store.staged (state V) /\
     verifiedBlocks V' = verifiedBlocks V) \/
    (Store.journal (state V') = Store.journal (state V) ++ [put; set] /\
     Store.staged (state V') =
       Store.staged (state V) ++ [Store.WBlock (b_id blk) blk'] /\
     verifiedBlocks V' = verifiedBlocks V) \/
    (Store.journal (state V') =
       Store.journal (state V) ++ [put; set; Store.CallCommit] /\
     Store.staged (state V') =
       Store.staged (state V) ++
       [Store.WBlock (b_id blk) blk'; Store.WLast (b_id blk)] /\
     verifiedBlocks V' = delete (b_id blk) (verifiedBlocks V)).
Proof.
  intros H.
  destruct (Accept_Done _ _ _ _ H) as (a & blk & v & V & -> & Hb & Hv & HV).
  rewrite (Accept_eq _ _ _ _ _ Hb Hv HV) in H. cbv zeta in H.
  exists a, blk, v, V.
  destruct (Store.PutBlock _ (state V)) as [r1 s1] eqn:E1.
  pose proof (PutBlock_fields _ _ _ _ E1) as (P1 & P2 & P3 & P4).
  destruct r1 as [e1|].
  { injection H as _ <-. eexists.
    do 5 (split; [assumption || reflexivity || apply lookup_insert_eq|]).
    cbn [state verifiedBlocks]. do 2 (split; [assumption|]).
    left. auto. }
  destruct (Store.SetLastAccepted _ s1) as [r2 s2] eqn:E2.
  pose proof (SetLastAccepted_fields _ _ _ _ E2) as (S1 & S2 & S3 & S4).
  destruct r2 as [e2|].
  { injection H as _ <-. eexists.
    do 5 (split; [assumption || reflexivity || apply lookup_insert_eq|]).
    cbn [state verifiedBlocks]. do 2 (split; [congruence|]).
    right. left. rewrite S3, P3, S4, P4, <- app_assoc. auto. }
  destruct (Store.Commit s2) as [r3 s3] eqn:E3. cbn [fst snd] in H.
  pose proof (Commit_fields _ _ _ E3) as (C0 & C1).
  injection H as -> <-. destruct C1 as (C1 & C2 & C3). eexists.
  do 5 (split; [assumption || reflexivity || apply lookup_insert_eq|]).
  cbn [state verifiedBlocks]. do 2 (split; [congruence|]).
  right. right. rewrite C0, S3, P3, C3, S4, P4, <- !app_assoc. auto.
Qed.

Lemma Accept_failure_anatomy_witness :
  exists a blk v V V',
    Some 0%nat = Some a /\
    blocks (Sample.world2 [Some (errStore 1)]) !! a = Some blk /\
    b_vm blk = Some v /\
    vms (Sample.world2 [Some (errStore 1)]) !! v = Some V /\
    vms Sample.world_failed_Accept !! v = Some V' /\
    Store.durable_blocks (state V') = Store.durable_blocks (state V) /\
    Store.durable_last (state V') = Store.durable_last (state V) /\
    let blk' := with_status choices.Accepted blk in
    let put := Store.CallPutBlock blk' in
    let set := Store.CallSetLastAccepted (b_id blk) in
    (Store.journal (state V') = Store.journal (state V) ++ [put] /\
     Store.staged (state V') = Store.staged (state V) /\
     verifiedBlocks V' = verifiedBlocks V) \/
    (Store.journal (state V') = Store.journal (state V) ++ [put; set] /\
     Store.staged (state V') =
       Store.staged (state V) ++ [Store.WBlock (b_id blk) blk'] /\
     verifiedBlocks V' = verifiedBlocks V) \/
    (Store.journal (state V') =
       Store.journal (state V) ++ [put; set; Store.CallCommit] /\
     Store.staged (state V') =
       Store.staged (state V) ++
       [Store.WBlock (b_id blk) blk'; Store.WLast (b_id blk)] /\
     verifiedBlocks V' = delete (b_id blk) (verifiedBlocks V)).
Proof.
  apply (Accept_failure_anatomy (Some 0%nat) (errStore 1)
           (Sample.world2 [Some (errStore 1)]) Sample.world_failed_Accept).
  vm_compute. reflexivity.
Defined.

(** X8.  The errors of [Accept] and [Reject] are the store's: an error
    returned is one of the faults that the store of the block's VM had in
    wait, passed on as it is; with a store that has no fault in wait both
    return without an error. *)
Theorem terminal_errors_from_store b r w w' :
  Accept b w = Done r w' \/ Reject b w = Done r w' ->
  exists a blk v V,
    b = Some a /\ blocks w !! a = Some blk /\ b_vm blk = Some v /\
    vms w !! v = Some V /\
    (forall e, r = Some e -> Some e ∈ Store.faults (state V)) /\
    ((forall e, Some e ∉ Store.faults (state V)) -> r = None).
Proof.
  intros H.
  assert (Hin : exists a blk v V,
            b = Some a /\ blocks w !! a = Some blk /\ b_vm blk = Some v /\
            vms w !! v = Some V /\
            forall e, r = Some e -> Some e ∈ Store.faults (state V)).
  { destruct H as [H|H].
    - destruct (Accept_Done _ _ _ _ H) as (a & blk & v & V & -> & Hb & Hv & HV).
      rewrite (Accept_eq _ _ _ _ _ Hb Hv HV) in H. cbv zeta in H.
      exists a, blk, v, V. do 4 (split; [assumption || reflexivity|]).
      destruct (Store.PutBlock _ (state V)) as [r1 s1] eqn:E1.
      apply PutBlock_faults in E1 as (F1 & G1).
      destruct r1 as [e1|]; [injection H as <- _; exact F1|].
      destruct (Store.SetLastAccepted _ s1) as [r2 s2] eqn:E2.
      apply SetLastAccepted_faults in E2 as (F2 & G2).
      destruct r2 as [e2|]; [injection H as <- _; intros e He; auto|].
      destruct (Store.Commit s2) as [r3 s3] eqn:E3.
      apply Commit_faults in E3 as (F3 & G3).
      injection H as <- _. intros e He. auto.
    - destruct (Reject_Done _ _ _ _ H) as (a & blk & v & V & -> & Hb & Hv & HV).
      rewrite (Reject_eq _ _ _ _ _ Hb Hv HV) in H. cbv zeta in H.
      exists a, blk, v, V. do 4 (split; [assumption || reflexivity|]).
      destruct (Store.PutBlock _ (state V)) as [r1 s1] eqn:E1.
      apply PutBlock_faults in E1 as (F1 & G1).
      destruct r1 as [e1|]; [injection H as <- _; exact F1|].
      destruct (Store.Commit s1) as [r3 s3] eqn:E3.
      apply Commit_faults in E3 as (F3 & G3).
      injection H as <- _. intros e He. auto. }
  destruct Hin as (a & blk & v & V & Hb0 & Hb & Hv & HV & Hin).
  exists a, blk, v, V. do 5 (split; [assumption|]).
  intros Hnone. destruct r as [e|]; [|reflexivity].
  exfalso. exact (Hnone e (Hin e eq_refl)).
Qed.

Lemma terminal_errors_from_store_witness :
  exists a blk v V,
    Some 0%nat = Some a /\
    blocks (Sample.world2 [Some (errStore 1)]) !! a = Some blk /\
    b_vm blk = Some v /\
    vms (Sample.world2 [Some (errStore 1)]) !! v = Some V /\
    (forall e, Some (errStore 1) = Some e -> Some e ∈ Store.faults (state V)) /\
    ((forall e, Some e ∉ Store.faults (state V)) ->
     Some (errStore 1) = None).
Proof.
  apply (terminal_errors_from_store (Some 0%nat) (Some (errStore 1))
           (Sample.world2 [Some (errStore 1)]) Sample.world_failed_Reject).
  right. vm_compute. reflexivity.
Defined.

(** X9.  When [Reject] returns without an error, the store was called twice:
    [PutBlock] with the block record (status Rejected), then [Commit]; the
    commit left nothing staged, the committed blocks are those that the store
    showed before with the record under the block's id, and the map of
    verified blocks is the former map without the block's id. *)
Theorem Reject_success b w w' :
  Reject b w = Done None w' ->
  exists a blk v V V',
    b = Some a /\ blocks w !! a = Some blk /\ b_vm blk = Some v /\
    vms w !! v = Some V /\ vms w' !! v = Some V' /\
    let blk' := with_status choices.Rejected blk in
    Store.journal (state V') =
      Store.journal (state V) ++ [Store.CallPutBlock blk'; Store.CallCommit] /\
    Store.staged (state V') = [] /\
    Store.durable_blocks (state V') =
      <[b_id blk := blk']> (Store.view_blocks (state V)) /\
    Store.view_blocks (state V') !! b_id blk = Some blk' /\
    verifiedBlocks V' = delete (b_id blk) (verifiedBlocks V) /\
    blocks w' !! a = Some blk'.
Proof.
  intros H.
  destruct (Reject_Done _ _ _ _ H) as (a & blk & v & V & -> & Hb & Hv & HV).
  rewrite (Reject_eq _ _ _ _ _ Hb Hv HV) in H. cbv zeta in H.
  destruct (Store.PutBlock _ (state V)) as [[e1|] s1] eqn:E1; [discriminate|].
  destruct (Store.Commit s1) as [r3 s3] eqn:E3. cbn [fst snd] in H.
  injection H as -> <-.
  exists a, blk, v, V, (mkVM (delete (b_id blk) (verifiedBlocks V)) s3).
  do 4 (split; [assumption || reflexivity|]).
  split; [apply lookup_insert_eq|].
  cbv zeta. cbn [state verifiedBlocks settled blocks].
  pose proof (PutBlock_fields _ _ _ _ E1) as (P1 & P2 & P3 & P4).
  pose proof (Commit_fields _ _ _ E3) as (C0 & C1 & C2 & C3).
  rewrite (flush_app _ s1 _ P1 P2 P4) in C1. cbn [Store.apply_write fst] in C1.
  split; [rewrite C0, P3, <- app_assoc; reflexivity|].
  split; [assumption|]. split; [assumption|].
  split.
  { unfold Store.view_blocks at 1, Store.flush. rewrite C1, C3. cbn.
    apply lookup_insert_eq. }
  split; [reflexivity | apply lookup_insert_eq].
Qed.

Lemma Reject_success_witness :
  exists a blk v V V',
    Some 0%nat = Some a /\ blocks (Sample.world2 []) !! a = Some blk /\
    b_vm blk = Some v /\
    vms (Sample.world2 []) !! v = Some V /\ vms Sample.world4 !! v = Some V' /\
    let blk' := with_status choices.Rejected blk in
    Store.journal (state V') =
      Store.journal (state V) ++ [Store.CallPutBlock blk'; Store.CallCommit] /\
    Store.staged (state V') = [] /\
    Store.durable_blocks (state V') =
      <[b_id blk := blk']> (Store.view_blocks (state V)) /\
    Store.view_blocks (state V') !! b_id blk = Some blk' /\
    verifiedBlocks V' = delete (b_id blk) (verifiedBlocks V) /\
    blocks Sample.world4 !! a = Some blk'.
Proof.
  apply (Reject_success (Some 0%nat) (Sample.world2 []) Sample.world4).
  vm_compute. reflexivity.
Defined.

(** X10.  A [Reject] that returns an error has committed nothing.  It stopped
    after [PutBlock], with nothing staged and the map of verified blocks as it
    was, or after [Commit], with the record staged and the block's id already
    deleted from the map. *)
Theorem Reject_failure_anatomy b e w w' :
  Reject b w = Done (Some e) w' ->
  exists a blk v V V',
    b = Some a /\ blocks w !! a = Some blk /\ b_vm blk = Some v /\
    vms w !! v = Some V /\ vms w' !! v = Some V' /\
    Store.durable_blocks (state V') = Store.durable_blocks (state V) /\
    Store.durable_last (state V') = Store.durable_last (state V) /\
    let blk' := with_status choices.Rejected blk in
    (Store.journal (state V') =
       Store.journal (state V) ++ [Store.CallPutBlock blk'] /\
     Store.staged (state V') = Store.staged (state V) /\
     verifiedBlocks V' = verifiedBlocks V) \/
    (Store.journal (state V') =
       Store.journal (state V) ++ [Store.CallPutBlock blk'; Store.CallCommit] /\
     Store.staged (state V') =
       Store.staged (state V) ++ [Store.WBlock (b_id blk) blk'] /\
     verifiedBlocks V' = delete (b_id blk) (verifiedBlocks V)).
Proof.
  intros H.
  destruct (Reject_Done _ _ _ _ H) as (a & blk & v & V & -> & Hb & Hv & HV).
  rewrite (Reject_eq _ _ _ _ _ Hb Hv HV) in H. cbv zeta in H.
  exists a, blk, v, V.
  destruct (Store.PutBlock _ (state V)) as [r1 s1] eqn:E1.
  pose proof (PutBlock_fields _ _ _ _ E1) as (P1 & P2 & P3 & P4).
  destruct r1 as [e1|].
  { injection H as _ <-. eexists.
    do 5 (split; [assumption || reflexivity || apply lookup_insert_eq|]).
    cbn [state verifiedBlocks]. do 2 (split; [assumption|]).
    left. auto. }
  destruct (Store.Commit s1) as [r3 s3] eqn:E3. cbn [fst snd] in H.
  pose proof (Commit_fields _ _ _ E3) as (C0 & C1).
  injection H as -> <-. destruct C1 as (C1 & C2 & C3). eexists.
  do 5 (split; [assumption || reflexivity || apply lookup_insert_eq|]).
  cbn [state verifiedBlocks]. do 2 (split; [congruence|]).
  right. rewrite C0, P3, C3, P4, <- !app_assoc. auto.
Qed.

Lemma Reject_failure_anatomy_witness :
  exists a blk v V V',
    Some 0%nat = Some a /\
    blocks (Sample.world2 [Some (errStore 1)]) !! a = Some blk /\
    b_vm blk = Some v /\
    vms (Sample.world2 [Some (errStore 1)]) !! v = Some V /\
    vms Sample.world_failed_Reject !! v = Some V' /\
    Store.durable_blocks (state V') = Store.durable_blocks (state V) /\
    Store.durable_last (state V') = Store.durable_last (state V) /\
    let blk' := with_status choices.Rejected blk in
    (Store.journal (state V') =
       Store.journal (state V) ++ [Store.CallPutBlock blk'] /\
     Store.staged (state V') = Store.staged (state V) /\
     verifiedBlocks V' = verifiedBlocks V) \/
    (Store.journal (state V') =
       Store.journal (state V) ++ [Store.CallPutBlock blk'; Store.CallCommit] /\
     Store.staged (state V') =
       Store.staged (state V) ++ [Store.WBlock (b_id blk) blk'] /\
     verifiedBlocks V' = delete (b_id blk) (verifiedBlocks V)).
Proof.
  apply (Reject_failure_anatomy (Some 0%nat) (errStore 1)
           (Sample.world2 [Some (errStore 1)]) Sample.world_failed_Reject).
  vm_compute. reflexivity.
Defined.

(** The VM that [Accept] and [Reject] leave: its map is the former one, or
    the former one without the block's id. *)
Lemma Accept_vms b r w w' :
  Accept b w = Done r w' ->
  exists a blk v V s,
    b = Some a /\ blocks w !! a = Some blk /\ b_vm blk = Some v /\
    vms w !! v = Some V /\
    (vms w' = <[v := mkVM (verifiedBlocks V) s]> (vms w) \/
     vms w' = <[v := mkVM (delete (b_id blk) (verifiedBlocks V)) s]> (vms w)).
Proof.
  intros H.
  destruct (Accept_Done _ _ _ _ H) as (a & blk & v & V & -> & Hb & Hv & HV).
  rewrite (Accept_eq _ _ _ _ _ Hb Hv HV) in H. cbv zeta in H.
  exists a, blk, v, V.
  destruct (Store.PutBlock _ _) as [[e1|] s1];
    [|destruct (Store.SetLastAccepted _ _) as [[e2|] s2]];
    injection H as _ <-; eexists; cbn [settled vms]; auto 10.
Qed.

Lemma Reject_vms b r w w' :
  Reject b w = Done r w' ->
  exists a blk v V s,
    b = Some a /\ blocks w !! a = Some blk /\ b_vm blk = Some v /\
    vms w !! v = Some V /\
    (vms w' = <[v := mkVM (verifiedBlocks V) s]> (vms w) \/
     vms w' = <[v := mkVM (delete (b_id blk) (verifiedBlocks V)) s]> (vms w)).
Proof.
  intros H.
  destruct (Reject_Done _ _ _ _ H) as (a & blk & v & V & -> & Hb & Hv & HV).
  rewrite (Reject_eq _ _ _ _ _ Hb Hv HV) in H. cbv zeta in H.
  exists a, blk, v, V.
  destruct (Store.PutBlock _ _) as [[e1|] s1];
    injection H as _ <-; eexists; cbn [settled vms]; auto 10.
Qed.

(** X11.  Whatever [Accept] and [Reject] return, they touch their block, its
    VM and its id only: the other blocks and the other VMs are as they were;
    of the block only the status may differ; in the map of verified blocks of
    its VM every other id has the entry it had. *)
Theorem terminal_frame b r w w' :
  Accept b w = Done r w' \/ Reject b w = Done r w' ->
  exists a blk blk' v V V',
    b = Some a /\ blocks w !! a = Some blk /\ b_vm blk = Some v /\
    vms w !! v = Some V /\
    blocks w' !! a = Some blk' /\ vms w' !! v = Some V' /\
    (forall s, with_status s blk' = with_status s blk) /\
    (forall a', a' <> a -> blocks w' !! a' = blocks w !! a') /\
    (forall v', v' <> v -> vms w' !! v' = vms w !! v') /\
    (forall k, k <> b_id blk ->
               verifiedBlocks V' !! k = verifiedBlocks V !! k).
Proof.
  intros H.
  assert (Hall : exists a blk s0 v V s ks,
            b = Some a /\ blocks w !! a = Some blk /\ b_vm blk = Some v /\
            vms w !! v = Some V /\
            blocks w' = <[a := with_status s0 blk]> (blocks w) /\
            vms w' = <[v := mkVM ks s]> (vms w) /\
            (ks = verifiedBlocks V \/
             ks = delete (b_id blk) (verifiedBlocks V))).
  { destruct H as [H|H].
    - destruct (Accept_blocks _ _ _ _ H) as (a & blk & -> & Hb & Hbs).
      destruct (Accept_vms _ _ _ _ H)
        as (a' & blk' & v & V & s & [= <-] & Hb' & Hv & HV & Hvs).
      rewrite Hb in Hb'. injection Hb' as <-.
      exists a, blk, choices.Accepted, v, V, s.
      destruct Hvs as [Hvs|Hvs]; eexists; eauto 10.
    - destruct (Reject_blocks _ _ _ _ H) as (a & blk & -> & Hb & Hbs).
      destruct (Reject_vms _ _ _ _ H)
        as (a' & blk' & v & V & s & [= <-] & Hb' & Hv & HV & Hvs).
      rewrite Hb in Hb'. injection Hb' as <-.
      exists a, blk, choices.Rejected, v, V, s.
      destruct Hvs as [Hvs|Hvs]; eexists; eauto 10. }
  destruct Hall as (a & blk & s0 & v & V & s & ks & -> & Hb & Hv & HV &
                    Hbs & Hvs & Hks).
  exists a, blk, (with_status s0 blk), v, V, (mkVM ks s).
  do 4 (split; [assumption || reflexivity|]).
  split; [rewrite Hbs; apply lookup_insert_eq|].
  split; [rewrite Hvs; apply lookup_insert_eq|].
  split; [reflexivity|].
  split; [intros a' Hne; rewrite Hbs; apply lookup_insert_ne; congruence|].
  split; [intros v' Hne; rewrite Hvs; apply lookup_insert_ne; congruence|].
  intros k Hne. cbn [verifiedBlocks].
  destruct Hks as [->| ->]; [reflexivity|].
  apply lookup_delete_ne. congruence.
Qed.

Lemma terminal_frame_witness :
  exists a blk blk' v V V',
    Some 0%nat = Some a /\ blocks (Sample.world2 []) !! a = Some blk /\
    b_vm blk = Some v /\ vms (Sample.world2 []) !! v = Some V /\
    blocks Sample.world3 !! a = Some blk' /\
    vms Sample.world3 !! v = Some V' /\
    (forall s, with_status s blk' = with_status s blk) /\
    (forall a', a' <> a ->
                blocks Sample.world3 !! a' = blocks (Sample.world2 []) !! a') /\
    (forall v', v' <> v ->
                vms Sample.world3 !! v' = vms (Sample.world2 []) !! v') /\
    (forall k, k <> b_id blk ->
               verifiedBlocks V' !! k = verifiedBlocks V !! k).
Proof.
  apply (terminal_frame (Some 0%nat) None (Sample.world2 []) Sample.world3).
  left. vm_compute. reflexivity.
Defined.

(** The world that a successful [Accept] or [Reject] leaves. *)
Lemma Accept_success_eq a blk v V w w' :
  blocks w !! a = Some blk -> b_vm blk = Some v -> vms w !! v = Some V ->
  Accept (Some a) w = Done None w' ->
  exists s,
    w' = settled a (with_status choices.Accepted blk) v
                 (mkVM (delete (b_id blk) (verifiedBlocks V)) s) w /\
    Store.staged s = [] /\
    Store.durable_blocks s =
      <[b_id blk := with_status choices.Accepted blk]>
        (Store.view_blocks (state V)) /\
    Store.durable_last s = Some (b_id blk) /\
    Store.journal s =
      Store.journal (state V) ++
      [Store.CallPutBlock (with_status choices.Accepted blk);
       Store.CallSetLastAccepted (b_id blk); Store.CallCommit].
Proof.
  intros Hb Hv HV H.
  rewrite (Accept_eq _ _ _ _ _ Hb Hv HV) in H. cbv zeta in H.
  destruct (Store.PutBlock _ (state V)) as [[e1|] s1] eqn:E1; [discriminate|].
  destruct (Store.SetLastAccepted _ s1) as [[e2|] s2] eqn:E2; [discriminate|].
  destruct (Store.Commit s2) as [r3 s3] eqn:E3. cbn [fst snd] in H.
  injection H as -> <-. exists s3. split; [reflexivity|].
  pose proof (PutBlock_fields _ _ _ _ E1) as (P1 & P2 & P3 & P4).
  pose proof (SetLastAccepted_fields _ _ _ _ E2) as (S1 & S2 & S3 & S4).
  pose proof (Commit_fields _ _ _ E3) as (C0 & C1 & C2 & C3).
  rewrite (flush_app s1 s2 _ S1 S2 S4), (flush_app _ s1 _ P1 P2 P4) in C1, C2.
  cbn [Store.apply_write fst snd] in C1, C2.
  repeat split; try assumption.
  rewrite C0, S3, P3, <- !app_assoc. reflexivity.
Qed.

Lemma Reject_success_eq a blk v V w w' :
  blocks w !! a = Some blk -> b_vm blk = Some v -> vms w !! v = Some V ->
  Reject (Some a) w = Done None w' ->
  exists s,
    w' = settled a (with_status choices.Rejected blk) v
                 (mkVM (delete (b_id blk) (verifiedBlocks V)) s) w /\
    Store.staged s = [] /\
    Store.durable_blocks s =
      <[b_id blk := with_status choices.Rejected blk]>
        (Store.view_blocks (state V)).
Proof.
  intros Hb Hv HV H.
  rewrite (Reject_eq _ _ _ _ _ Hb Hv HV) in H. cbv zeta in H.
  destruct (Store.PutBlock _ (state V)) as [[e1|] s1] eqn:E1; [discriminate|].
  destruct (Store.Commit s1) as [r3 s3] eqn:E3. cbn [fst snd] in H.
  injection H as -> <-. exists s3. split; [reflexivity|].
  pose proof (PutBlock_fields _ _ _ _ E1) as (P1 & P2 & P3 & P4).
  pose proof (Commit_fields _ _ _ E3) as (C0 & C1 & C2 & C3).
  rewrite (flush_app _ s1 _ P1 P2 P4) in C1. cbn [Store.apply_write fst] in C1.
  split; assumption.
Qed.

(** With nothing staged, the store shows what is committed. *)
Lemma view_blocks_committed s :
  Store.staged s = [] -> Store.view_blocks s = Store.durable_blocks s.
Proof. intros E. unfold Store.view_blocks, Store.flush. now rewrite E. Qed.

(** X12.  A second [Accept] of a block that was accepted, when it returns
    without an error, makes its three calls of the store again and changes
    nothing else: the blocks, the map of verified blocks and what the store
    has committed are as the first [Accept] left them. *)
Theorem Accept_again b w w1 w2 :
  Accept b w = Done None w1 -> Accept b w1 = Done None w2 ->
  exists a blk v V1 V2,
    b = Some a /\ blocks w1 !! a = Some blk /\ b_vm blk = Some v /\
    vms w1 !! v = Some V1 /\ vms w2 !! v = Some V2 /\
    blocks w2 = blocks w1 /\
    verifiedBlocks V2 = verifiedBlocks V1 /\
    Store.durable_blocks (state V2) = Store.durable_blocks (state V1) /\
    Store.durable_last (state V2) = Store.durable_last (state V1) /\
    Store.staged (state V2) = Store.staged (state V1) /\
    Store.journal (state V2) =
      Store.journal (state V1) ++
      [Store.CallPutBlock blk; Store.CallSetLastAccepted (b_id blk);
       Store.CallCommit].
Proof.
  intros H1 H2.
  destruct (Accept_Done _ _ _ _ H1) as (a & blk & v & V & -> & Hb & Hv & HV).
  destruct (Accept_success_eq _ _ _ _ _ _ Hb Hv HV H1)
    as (s1 & -> & St1 & Db1 & Dl1 & J1).
  set (blk' := with_status choices.Accepted blk) in *.
  set (V1 := mkVM (delete (b_id blk) (verifiedBlocks V)) s1).
  assert (Hb1 : blocks (settled a blk' v V1 w) !! a = Some blk')
    by apply lookup_insert_eq.
  assert (HV1 : vms (settled a blk' v V1 w) !! v = Some V1)
    by apply lookup_insert_eq.
  destruct (Accept_success_eq _ _ _ _ _ _ Hb1 Hv HV1 H2)
    as (s2 & -> & St2 & Db2 & Dl2 & J2).
  change (with_status choices.Accepted blk') with blk' in *.
  cbn [b_id blk' with_status V1 state verifiedBlocks] in *.
  exists a, blk', v, V1. eexists.
  do 4 (split; [assumption || reflexivity|]).
  split; [apply lookup_insert_eq|].
  cbn [settled blocks state verifiedBlocks].
  split; [apply insert_insert_eq|].
  split; [apply delete_delete_eq|].
  subst V1. cbn [state verifiedBlocks].
  split.
  { rewrite Db2, (view_blocks_committed s1 St1), Db1.
    apply insert_insert_eq. }
  split; [congruence|]. split; [congruence|]. exact J2.
Qed.

Lemma Accept_again_witness :
  exists a blk v V1 V2,
    Some 0%nat = Some a /\ blocks Sample.world3 !! a = Some blk /\
    b_vm blk = Some v /\
    vms Sample.world3 !! v = Some V1 /\
    vms (SampleChain.accepted Sample.world3) !! v = Some V2 /\
    blocks (SampleChain.accepted Sample.world3) = blocks Sample.world3 /\
    verifiedBlocks V2 = verifiedBlocks V1 /\
    Store.durable_blocks (state V2) = Store.durable_blocks (state V1) /\
    Store.durable_last (state V2) = Store.durable_last (state V1) /\
    Store.staged (state V2) = Store.staged (state V1) /\
    Store.journal (state V2) =
      Store.journal (state V1) ++
      [Store.CallPutBlock blk; Store.CallSetLastAccepted (b_id blk);
       Store.CallCommit].
Proof.
  apply (Accept_again (Some 0%nat) (Sample.world2 []) Sample.world3
           (SampleChain.accepted Sample.world3));
    vm_compute; reflexivity.
Defined.




(** The grandchild of the sample passes [Verify] after its parent was
    rejected. *)
Example Verify_child_of_rejected :
  exists w,
    Verify Sample.now0 (Some 2%nat)
           (SampleChain.rejected SampleChain.world_family) = Done None w.
Proof. eexists. vm_compute. reflexivity. Qed.

(** X14.  [Accept] and [Reject] do not look at the map of verified blocks:
    with whatever map in its place they return the same result and leave the
    same blocks and the same store; a block that was never verified is
    accepted, or rejected, like one that was. *)
Theorem terminal_ignores_pending a blk v V ks w :
  blocks w !! a = Some blk -> b_vm blk = Some v -> vms w !! v = Some V ->
  let w_ks := mkWorld (blocks w) (<[v := mkVM ks (state V)]> (vms w)) in
  (exists r w' w2 V' V2,
     Accept (Some a) w = Done r w' /\ Accept (Some a) w_ks = Done r w2 /\
     blocks w2 = blocks w' /\
     vms w' !! v = Some V' /\ vms w2 !! v = Some V2 /\ state V2 = state V') /\
  (exists r w' w2 V' V2,
     Reject (Some a) w = Done r w' /\ Reject (Some a) w_ks = Done r w2 /\
     blocks w2 = blocks w' /\
     vms w' !! v = Some V' /\ vms w2 !! v = Some V2 /\ state V2 = state V').
Proof.
  intros Hb Hv HV w_ks.
  assert (HVk : vms w_ks !! v = Some (mkVM ks (state V)))
    by apply lookup_insert_eq.
  split.
  - rewrite (Accept_eq _ _ _ _ _ Hb Hv HV).
    rewrite (Accept_eq a blk v _ w_ks Hb Hv HVk).
    cbv zeta. cbn [state verifiedBlocks].
    destruct (Store.PutBlock _ _) as [[e1|] s1];
      [|destruct (Store.SetLastAccepted _ _) as [[e2|] s2]];
      eexists _, _, _, _, _;
      (split; [reflexivity|]); (split; [reflexivity|]);
      (split; [reflexivity|]);
      (split; [apply lookup_insert_eq|]);
      (split; [apply lookup_insert_eq|]); reflexivity.
  - rewrite (Reject_eq _ _ _ _ _ Hb Hv HV).
    rewrite (Reject_eq a blk v _ w_ks Hb Hv HVk).
    cbv zeta. cbn [state verifiedBlocks].
    destruct (Store.PutBlock _ _) as [[e1|] s1];
      eexists _, _, _, _, _;
      (split; [reflexivity|]); (split; [reflexivity|]);
      (split; [reflexivity|]);
      (split; [apply lookup_insert_eq|]);
      (split; [apply lookup_insert_eq|]); reflexivity.
Qed.

Lemma terminal_ignores_pending_witness :
  let w_ks :=
    mkWorld (blocks (Sample.world2 []))
            (<[0%nat := mkVM ∅ (Store.mk {[ 1 := Sample.genesis ]} (Some 1) []
                                  [Store.CallGetBlock 1] [])]>
               (vms (Sample.world2 []))) in
  (exists r w' w2 V' V2,
     Accept (Some 0%nat) (Sample.world2 []) = Done r w' /\
     Accept (Some 0%nat) w_ks = Done r w2 /\
     blocks w2 = blocks w' /\
     vms w' !! 0%nat = Some V' /\ vms w2 !! 0%nat = Some V2 /\
     state V2 = state V') /\
  (exists r w' w2 V' V2,
     Reject (Some 0%nat) (Sample.world2 []) = Done r w' /\
     Reject (Some 0%nat) w_ks = Done r w2 /\
     blocks w2 = blocks w' /\
     vms w' !! 0%nat = Some V' /\ vms w2 !! 0%nat = Some V2 /\
     state V2 = state V').
Proof.
  apply (terminal_ignores_pending 0%nat Sample.child1 0%nat
           (mkVM {[ 101 := 0%nat ]}
                 (Store.mk {[ 1 := Sample.genesis ]} (Some 1) []
                    [Store.CallGetBlock 1] []))
           ∅ (Sample.world2 []));
    reflexivity.
Defined.

(** ** newTimeBlock and the accessors *)

(** X15.  [newTimeBlock] keeps the whole seconds of the time it is given:
    the timestamp of the block is at most the time, by less than a second,
    and has the same Unix seconds; making the block again from its own
    timestamp gives the same block.  The parent, the height and the data are
    those given. *)
Theorem newTimeBlock_truncates parentID height data t :
  let b := newTimeBlock parentID height data t in
  Parent b = parentID /\ Height b = height /\ Data b = data /\
  Timestamp b <= t < Timestamp b + time.Second /\
  time.Time_Unix (Timestamp b) = time.Time_Unix t /\
  newTimeBlock parentID height data (Timestamp b) = b.
Proof.
  cbv zeta. do 3 (split; [reflexivity|]).
  assert (Hu : time.Time_Unix (Timestamp (newTimeBlock parentID height data t))
               = time.Time_Unix t) by apply Time_Unix_Timestamp.
  split; [|split; [exact Hu|]].
  - unfold Timestamp, newTimeBlock, time.Unix, time.Time_Unix, time.Second.
    cbn [Tmstmp].
    pose proof (Z.mul_div_le t 1000000000).
    pose proof (Z.mul_succ_div_gt t 1000000000). lia.
  - unfold newTimeBlock at 1. now rewrite Hu.
Qed.

(** ** Panics *)







(** ** Initialize: what it changes *)

Section InitializeEffects.

Variable ComputeHash256Array : list byte -> ids.ID.

(** X17.  [Initialize] changes its block only: the VMs and the other
    blocks are as they were.  Afterwards [Bytes] returns the bytes given,
    [Status] the status given, [ID] the hash of the bytes, and [Parent],
    [Height], [Timestamp] and [Data] return what they returned before. *)
Theorem Initialize_effects b bytes status vm w w' :
  Initialize ComputeHash256Array b bytes status vm w = Done tt w' ->
  exists a blk,
    b = Some a /\ blocks w !! a = Some blk /\
    vms w' = vms w /\
    (forall a', a' <> a -> blocks w' !! a' = blocks w !! a') /\
    method Bytes b w' = Done bytes w' /\
    method Status b w' = Done status w' /\
    method ID b w' = Done (ComputeHash256Array bytes) w' /\
    method Parent b w' = Done (Parent blk) w' /\
    method Height b w' = Done (Height blk) w' /\
    method Timestamp b w' = Done (Timestamp blk) w' /\
    method Data b w' = Done (Data blk) w'.
Proof.
  intros H.
  destruct (Initialize_Done _ _ _ _ _ _ _ _ H) as (a & blk & -> & Hb & ->).
  exists a, blk. do 3 (split; [assumption || reflexivity|]).
  split; [intros a' Hne; cbn [blocks]; apply lookup_insert_ne; congruence|].
  unfold method, bind, ret.
  rewrite (load_eq a (initialized ComputeHash256Array bytes status vm blk))
    by apply lookup_insert_eq.
  repeat split.
Qed.

(** X18.  Of two [Initialize] calls on a block the last one wins: the
    second call leaves what it would have left without the first. *)
Theorem Initialize_last_wins b bytes1 status1 vm1 bytes2 status2 vm2 w w1 :
  Initialize ComputeHash256Array b bytes1 status1 vm1 w = Done tt w1 ->
  Initialize ComputeHash256Array b bytes2 status2 vm2 w1 =
  Initialize ComputeHash256Array b bytes2 status2 vm2 w.
Proof.
  intros H.
  destruct (Initialize_Done _ _ _ _ _ _ _ _ H) as (a & blk & -> & Hb & ->).
  rewrite (Initialize_eq _ a blk _ _ _ w Hb).
  rewrite (Initialize_eq _ a (initialized ComputeHash256Array bytes1 status1
                                          vm1 blk))
    by apply lookup_insert_eq.
  cbn [blocks vms]. now rewrite insert_insert_eq.
Qed.


End InitializeEffects.

Lemma Initialize_effects_witness :
  exists a blk,
    Some 0%nat = Some a /\ blocks (Sample.world0 []) !! a = Some blk /\
    vms (Sample.world1 []) = vms (Sample.world0 []) /\
    (forall a', a' <> a ->
                blocks (Sample.world1 []) !! a' = blocks (Sample.world0 []) !! a') /\
    method Bytes (Some 0%nat) (Sample.world1 []) =
      Done Sample.bytes0 (Sample.world1 []) /\
    method Status (Some 0%nat) (Sample.world1 []) =
      Done choices.Processing (Sample.world1 []) /\
    method ID (Some 0%nat) (Sample.world1 []) =
      Done (Sample.hash Sample.bytes0) (Sample.world1 []) /\
    method Parent (Some 0%nat) (Sample.world1 []) =
      Done (Parent blk) (Sample.world1 []) /\
    method Height (Some 0%nat) (Sample.world1 []) =
      Done (Height blk) (Sample.world1 []) /\
    method Timestamp (Some 0%nat) (Sample.world1 []) =
      Done (Timestamp blk) (Sample.world1 []) /\
    method Data (Some 0%nat) (Sample.world1 []) =
      Done (Data blk) (Sample.world1 []).
Proof.
  apply (Initialize_effects Sample.hash (Some 0%nat) Sample.bytes0
           choices.Processing (Some 0%nat) (Sample.world0 [])
           (Sample.world1 [])).
  vm_compute. reflexivity.
Defined.

Lemma Initialize_last_wins_witness :
  Initialize Sample.hash (Some 0%nat) [] choices.Rejected None
             (Sample.world1 []) =
  Initialize Sample.hash (Some 0%nat) [] choices.Rejected None
             (Sample.world0 []).
Proof.
  apply (Initialize_last_wins Sample.hash (Some 0%nat) Sample.bytes0
           choices.Processing (Some 0%nat) [] choices.Rejected None
           (Sample.world0 []) (Sample.world1 [])).
  vm_compute. reflexivity.
Defined.


(** ** How the calls compose *)

(** X20.  [Verify] and then [Accept] or [Reject] of the same block, each
    without an error, leave the map of verified blocks as it was before
    [Verify], without the block's id: as it was, when the id was not in it. *)
Theorem Verify_then_terminal now a w w1 w2 :
  Verify now (Some a) w = Done None w1 ->
  Accept (Some a) w1 = Done None w2 \/ Reject (Some a) w1 = Done None w2 ->
  exists blk v V V2,
    blocks w !! a = Some blk /\ b_vm blk = Some v /\
    vms w !! v = Some V /\ vms w2 !! v = Some V2 /\
    verifiedBlocks V2 = delete (b_id blk) (verifiedBlocks V) /\
    (verifiedBlocks V !! b_id blk = None ->
     verifiedBlocks V2 = verifiedBlocks V).
Proof.
  intros H1 H2.
  destruct (Verify_Done _ _ _ _ _ H1) as (blk & v & V & Hb & Hv & HV).
  rewrite (Verify_eq _ _ _ _ _ _ Hb Hv HV) in H1.
  destruct (Store.GetBlock _ (state V)) as [[p1|e1] s1]; [|discriminate].
  destruct (checks now blk p1); [discriminate|].
  injection H1 as <-.
  set (V1 := mkVM (<[b_id blk := a]> (verifiedBlocks V)) s1) in *.
  assert (HV1 : vms (verified v V1 w) !! v = Some V1) by apply lookup_insert_eq.
  assert (Hd : delete (b_id blk) (verifiedBlocks V1) =
               delete (b_id blk) (verifiedBlocks V))
    by apply delete_insert_eq.
  exists blk, v, V.
  assert (HV2 : exists s, vms w2 !! v =
                          Some (mkVM (delete (b_id blk) (verifiedBlocks V1)) s)).
  { destruct H2 as [H2|H2].
    - destruct (Accept_success_eq a blk v V1 (verified v V1 w) _ Hb Hv HV1 H2) as (s & -> & _).
      exists s. apply lookup_insert_eq.
    - destruct (Reject_success_eq a blk v V1 (verified v V1 w) _ Hb Hv HV1 H2) as (s & -> & _).
      exists s. apply lookup_insert_eq. }
  destruct HV2 as (s & HV2). rewrite Hd in HV2.
  eexists. do 3 (split; [assumption|]). split; [exact HV2|].
  cbn [verifiedBlocks]. split; [reflexivity|].
  intros Hn. now apply delete_id.
Qed.

Lemma Verify_then_terminal_witness :
  exists blk v V V2,
    blocks (Sample.world1 [None]) !! 0%nat = Some blk /\ b_vm blk = Some v /\
    vms (Sample.world1 [None]) !! v = Some V /\
    vms Sample.world4 !! v = Some V2 /\
    verifiedBlocks V2 = delete (b_id blk) (verifiedBlocks V) /\
    (verifiedBlocks V !! b_id blk = None ->
     verifiedBlocks V2 = verifiedBlocks V).
Proof.
  apply (Verify_then_terminal Sample.now0 0%nat (Sample.world1 [None])
           (Sample.world2 []) Sample.world4).
  - vm_compute. reflexivity.
  - right. vm_compute. reflexivity.
Defined.

(** X21.  The map of verified blocks is keyed by the id alone.  When two
    blocks of a VM have the same id, [Verify] of the second files its pointer
    under that id, and [Accept] or [Reject] of the first, without an error,
    deletes that entry: the second block is in the map no more, and its
    status is what it was. *)
Theorem same_id_shares_entry now a1 a2 blk1 blk2 v w w1 w2 :
  a1 <> a2 ->
  blocks w !! a1 = Some blk1 -> blocks w !! a2 = Some blk2 ->
  b_vm blk1 = Some v -> b_vm blk2 = Some v -> b_id blk2 = b_id blk1 ->
  Verify now (Some a2) w = Done None w1 ->
  Accept (Some a1) w1 = Done None w2 \/ Reject (Some a1) w1 = Done None w2 ->
  exists V1 V2,
    vms w1 !! v = Some V1 /\ verifiedBlocks V1 !! b_id blk2 = Some a2 /\
    vms w2 !! v = Some V2 /\ verifiedBlocks V2 !! b_id blk2 = None /\
    blocks w2 !! a2 = Some blk2.
Proof.
  intros Hne Hb1 Hb2 Hv1 Hv2 Hid H1 H2.
  destruct (Verify_Done _ _ _ _ _ H1) as (blk & v' & V & Hb & Hv & HV).
  rewrite Hb2 in Hb. injection Hb as <-.
  rewrite Hv2 in Hv. injection Hv as <-.
  rewrite (Verify_eq _ _ _ _ _ _ Hb2 Hv2 HV) in H1.
  destruct (Store.GetBlock _ (state V)) as [[p1|e1] s1]; [|discriminate].
  destruct (checks now blk2 p1); [discriminate|].
  injection H1 as <-.
  set (V1 := mkVM (<[b_id blk2 := a2]> (verifiedBlocks V)) s1) in *.
  assert (HV1 : vms (verified v V1 w) !! v = Some V1) by apply lookup_insert_eq.
  exists V1. 
  assert (HV2 : exists s blk1',
            w2 = settled a1 blk1' v
                   (mkVM (delete (b_id blk1) (verifiedBlocks V1)) s)
                   (verified v V1 w)).
  { destruct H2 as [H2|H2].
    - destruct (Accept_success_eq a1 blk1 v V1 (verified v V1 w) _ Hb1 Hv1 HV1 H2)
        as (s & -> & _). eauto.
    - destruct (Reject_success_eq a1 blk1 v V1 (verified v V1 w) _ Hb1 Hv1 HV1 H2)
        as (s & -> & _). eauto. }
  destruct HV2 as (s & blk1' & ->). eexists.
  split; [assumption|]. split; [apply lookup_insert_eq|].
  split; [apply lookup_insert_eq|]. cbn [verifiedBlocks settled blocks verified].
  split; [rewrite Hid; apply lookup_delete_eq|].
  rewrite lookup_insert_ne by congruence. assumption.
Qed.

Lemma same_id_shares_entry_witness :
  exists V1 V2,
    vms (SampleChain.verified_at 3%nat (SampleChain.world_double [])) !! 0%nat
      = Some V1 /\
    verifiedBlocks V1 !! b_id Sample.child1 = Some 3%nat /\
    vms (SampleChain.rejected
           (SampleChain.verified_at 3%nat (SampleChain.world_double [])))
      !! 0%nat = Some V2 /\
    verifiedBlocks V2 !! b_id Sample.child1 = None /\
    blocks (SampleChain.rejected
              (SampleChain.verified_at 3%nat (SampleChain.world_double [])))
      !! 3%nat = Some Sample.child1.
Proof.
  apply (same_id_shares_entry Sample.now0 0%nat 3%nat Sample.child1
           Sample.child1 0%nat (SampleChain.world_double [])
           (SampleChain.verified_at 3%nat (SampleChain.world_double []))
           (SampleChain.rejected
              (SampleChain.verified_at 3%nat (SampleChain.world_double []))));
    try reflexivity.
  - discriminate.
  - right. vm_compute. reflexivity.
Defined.

Section Immutable.

Variable ComputeHash256Array : list byte -> ids.ID.

Lemma run_call_exported c r w w' a :
  run_call ComputeHash256Array c w = Done r w' ->
  exported <$> blocks w' !! a = exported <$> blocks w !! a.
Proof.
  intros H. destruct c as [b bytes status vm|now b|b|b]; cbn [run_call] in H.
  - unfold bind in H.
    destruct (Initialize _ _ _ _ _ w) as [[] w1|] eqn:E; [|discriminate].
    injection H as _ <-.
    destruct (Initialize_Done _ _ _ _ _ _ _ _ E) as (a0 & blk & -> & Hb & ->).
    cbn [blocks]. destruct (decide (a = a0)) as [->|Hne].
    + now rewrite lookup_insert_eq, Hb.
    + now rewrite lookup_insert_ne by congruence.
  - now rewrite (Verify_blocks _ _ _ _ _ H).
  - destruct (Accept_blocks _ _ _ _ H) as (a0 & blk & -> & Hb & ->).
    destruct (decide (a = a0)) as [->|Hne].
    + now rewrite lookup_insert_eq, Hb.
    + now rewrite lookup_insert_ne by congruence.
  - destruct (Reject_blocks _ _ _ _ H) as (a0 & blk & -> & Hb & ->).
    destruct (decide (a = a0)) as [->|Hne].
    + now rewrite lookup_insert_eq, Hb.
    + now rewrite lookup_insert_ne by congruence.
Qed.

(** X22.  The parent id, the height, the timestamp and the data of a block
    never change: after any sequence of [Initialize], [Verify], [Accept]
    and [Reject] calls, with whatever results, every block has the values
    it had at the start, and no block has appeared or gone. *)
Theorem exported_fields_immutable w0 w :
  reachable ComputeHash256Array w0 w ->
  forall a, exported <$> blocks w !! a = exported <$> blocks w0 !! a.
Proof.
  intros Hr a. induction Hr as [|w c r w' _ IH Hrun]; [reflexivity|].
  now rewrite (run_call_exported _ _ _ _ _ Hrun).
Qed.

End Immutable.

Lemma Sample_world_failed_Accept_reachable :
  reachable Sample.hash (Sample.world0 [None; Some (errStore 1)])
            Sample.world_failed_Accept.
Proof.
  apply (reachable_call _ _ (Sample.world2 [Some (errStore 1)])
           (CallAccept (Some 0%nat)) (Some (errStore 1)));
    [|vm_compute; reflexivity].
  apply (reachable_call _ _ (Sample.world1 [None; Some (errStore 1)])
           (CallVerify Sample.now0 (Some 0%nat)) None);
    [|vm_compute; reflexivity].
  apply (reachable_call _ _ (Sample.world0 [None; Some (errStore 1)])
           (CallInitialize (Some 0%nat) Sample.bytes0 choices.Processing
                           (Some 0%nat)) None);
    [apply reachable_start|vm_compute; reflexivity].
Qed.

Lemma exported_fields_immutable_witness :
  exported <$> blocks Sample.world_failed_Accept !! 0%nat =
  exported <$> blocks (Sample.world0 [None; Some (errStore 1)]) !! 0%nat.
Proof.
  apply (exported_fields_immutable Sample.hash
           (Sample.world0 [None; Some (errStore 1)])
           Sample.world_failed_Accept).
  apply Sample_world_failed_Accept_reachable.
Defined.

(** ** What the calls write to the store *)

Section StoreViews.

Import Store.

Lemma PutBlock_view blk s r s' :
  PutBlock blk s = (r, s') ->
  lastAccepted s' = lastAccepted s /\
  (forall k, k <> b_id blk -> view_blocks s' !! k = view_blocks s !! k) /\
  (view_blocks s' = view_blocks s \/
   view_blocks s' !! b_id blk = Some blk).
Proof.
  intros H. apply PutBlock_fields in H as (P1 & P2 & _ & P4).
  unfold lastAccepted, view_blocks. destruct r as [e|].
  - rewrite (flush_same s s') by assumption. auto.
  - rewrite (flush_app s s' _ P1 P2 P4). cbn [apply_write fst snd].
    split; [reflexivity|]. split.
    + intros k Hk. apply lookup_insert_ne. congruence.
    + right. apply lookup_insert_eq.
Qed.

Lemma SetLastAccepted_view i s r s' :
  SetLastAccepted i s = (r, s') ->
  view_blocks s' = view_blocks s /\
  (lastAccepted s' = lastAccepted s \/ lastAccepted s' = Some i).
Proof.
  intros H. apply SetLastAccepted_fields in H as (P1 & P2 & _ & P4).
  unfold lastAccepted, view_blocks. destruct r as [e|].
  - rewrite (flush_same s s') by assumption. auto.
  - rewrite (flush_app s s' _ P1 P2 P4). cbn [apply_write fst snd]. auto.
Qed.

Lemma GetBlock_view i s r s' :
  GetBlock i s = (r, s') ->
  view_blocks s' = view_blocks s /\ lastAccepted s' = lastAccepted s.
Proof.
  intros H. apply GetBlock_fields in H as (P1 & P2 & P3 & _).
  unfold lastAccepted, view_blocks.
  rewrite (flush_same s s') by assumption. auto.
Qed.

End StoreViews.

(** The store of a VM after a call, in terms of the calls of the store
    made. *)
Lemma Accept_store b r w w' v V V' :
  Accept b w = Done r w' -> vms w !! v = Some V -> vms w' !! v = Some V' ->
  exists a blk,
    b = Some a /\ blocks w !! a = Some blk /\
    (state V' = state V \/
     b_vm blk = Some v /\
     exists r1 s1,
       Store.PutBlock (with_status choices.Accepted blk) (state V) = (r1, s1) /\
       (state V' = s1 \/
        exists r2 s2,
          Store.SetLastAccepted (b_id blk) s1 = (r2, s2) /\
          (state V' = s2 \/ state V' = snd (Store.Commit s2)))).
Proof.
  intros H HV HV'.
  destruct (Accept_Done _ _ _ _ H) as (a & blk & v0 & V0 & -> & Hb & Hv & HV0).
  rewrite (Accept_eq _ _ _ _ _ Hb Hv HV0) in H. cbv zeta in H.
  exists a, blk. do 2 (split; [assumption || reflexivity|]).
  destruct (decide (v = v0)) as [->|Hne].
  2: { left.
       assert (vms w' !! v = vms w !! v) as E.
       { destruct (Store.PutBlock _ _) as [[e1|] s1];
           [|destruct (Store.SetLastAccepted _ _) as [[e2|] s2]];
           injection H as _ <-; cbn [settled vms];
           apply lookup_insert_ne; congruence. }
       rewrite HV, HV' in E. now injection E as ->. }
  rewrite HV in HV0. injection HV0 as <-.
  right. split; [assumption|].
  destruct (Store.PutBlock _ (state V)) as [r1 s1] eqn:E1.
  exists r1, s1. split; [reflexivity|].
  destruct r1 as [e1|].
  { injection H as _ <-. cbn [settled vms] in HV'.
    rewrite lookup_insert_eq in HV'. injection HV' as <-. now left. }
  right. destruct (Store.SetLastAccepted _ s1) as [r2 s2] eqn:E2.
  exists r2, s2. split; [reflexivity|].
  destruct r2 as [e2|]; injection H as _ <-; cbn [settled vms] in HV';
    rewrite lookup_insert_eq in HV'; injection HV' as <-; auto.
Qed.

Lemma Reject_store b r w w' v V V' :
  Reject b w = Done r w' -> vms w !! v = Some V -> vms w' !! v = Some V' ->
  exists a blk,
    b = Some a /\ blocks w !! a = Some blk /\
    (state V' = state V \/
     b_vm blk = Some v /\
     exists r1 s1,
       Store.PutBlock (with_status choices.Rejected blk) (state V) = (r1, s1) /\
       (state V' = s1 \/ state V' = snd (Store.Commit s1))).
Proof.
  intros H HV HV'.
  destruct (Reject_Done _ _ _ _ H) as (a & blk & v0 & V0 & -> & Hb & Hv & HV0).
  rewrite (Reject_eq _ _ _ _ _ Hb Hv HV0) in H. cbv zeta in H.
  exists a, blk. do 2 (split; [assumption || reflexivity|]).
  destruct (decide (v = v0)) as [->|Hne].
  2: { left.
       assert (vms w' !! v = vms w !! v) as E.
       { destruct (Store.PutBlock _ _) as [[e1|] s1];
           injection H as _ <-; cbn [settled vms];
           apply lookup_insert_ne; congruence. }
       rewrite HV, HV' in E. now injection E as ->. }
  rewrite HV in HV0. injection HV0 as <-.
  right. split; [assumption|].
  destruct (Store.PutBlock _ (state V)) as [r1 s1] eqn:E1.
  exists r1, s1. split; [reflexivity|].
  destruct r1 as [e1|]; injection H as _ <-; cbn [settled vms] in HV';
    rewrite lookup_insert_eq in HV'; injection HV' as <-; auto.
Qed.

Lemma Verify_store now b r w w' v V V' :
  Verify now b w = Done r w' -> vms w !! v = Some V -> vms w' !! v = Some V' ->
  Store.view_blocks (state V') = Store.view_blocks (state V) /\
  Store.lastAccepted (state V') = Store.lastAccepted (state V).
Proof.
  intros H HV HV'. destruct b as [a|].
  2: { injection H as _ <-. rewrite HV in HV'. now injection HV' as <-. }
  destruct (Verify_Done _ _ _ _ _ H) as (blk & v0 & V0 & Hb & Hv & HV0).
  rewrite (Verify_eq _ _ _ _ _ _ Hb Hv HV0) in H.
  destruct (Store.GetBlock _ (state V0)) as [r1 s1] eqn:G.
  apply GetBlock_view in G as (G1 & G2).
  assert (E : exists ks, vms w' = <[v0 := mkVM ks s1]> (vms w)).
  { destruct r1 as [p|e]; [destruct (checks _ _ _)|];
      injection H as _ <-; eexists; reflexivity. }
  destruct E as (ks & E). rewrite E in HV'.
  destruct (decide (v = v0)) as [->|Hne].
  - rewrite lookup_insert_eq in HV'. injection HV' as <-.
    rewrite HV in HV0. injection HV0 as <-. auto.
  - rewrite lookup_insert_ne, HV in HV' by congruence.
    now injection HV' as <-.
Qed.

Section StoreWrites.

Variable ComputeHash256Array : list byte -> ids.ID.

(** X23.  Only [Accept] moves the last-accepted pointer.  After any one
    call the pointer that a store shows is the one of before, unless the
    call is [Accept] of a block of that VM, and then it is the one of
    before or the block's id. *)
Theorem only_Accept_moves_pointer c r w w' v V V' :
  run_call ComputeHash256Array c w = Done r w' ->
  vms w !! v = Some V -> vms w' !! v = Some V' ->
  Store.lastAccepted (state V') = Store.lastAccepted (state V) \/
  exists a blk,
    c = CallAccept (Some a) /\ blocks w !! a = Some blk /\
    b_vm blk = Some v /\
    Store.lastAccepted (state V') = Some (b_id blk).
Proof.
  intros H HV HV'.
  destruct c as [b bytes status vm|now b|b|b]; cbn [run_call] in H.
  - unfold bind in H.
    destruct (Initialize _ _ _ _ _ w) as [[] w1|] eqn:E; [|discriminate].
    injection H as _ <-.
    destruct (Initialize_Done _ _ _ _ _ _ _ _ E) as (a & blk & _ & _ & ->).
    cbn [vms] in HV'. rewrite HV in HV'. injection HV' as <-. now left.
  - left. exact (proj2 (Verify_store _ _ _ _ _ _ _ _ H HV HV')).
  - destruct (Accept_store _ _ _ _ _ _ _ H HV HV')
      as (a & blk & -> & Hb & [->|(Hv & r1 & s1 & E1 & Hs)]); [now left|].
    apply PutBlock_view in E1 as (L1 & _).
    destruct Hs as [->|(r2 & s2 & E2 & Hs)]; [now left|].
    apply SetLastAccepted_view in E2 as (_ & L2).
    assert (L3 : Store.lastAccepted (state V') = Store.lastAccepted s2).
    { destruct Hs as [->| ->]; [reflexivity|].
      unfold Store.lastAccepted.
      destruct (Store.Commit s2) as [r3 s3] eqn:E3. cbn [snd].
      now rewrite (Commit_view _ _ _ E3). }
    rewrite L3, <- L1.
    destruct L2 as [->| ->]; [now left|]. right. exists a, blk. auto.
  - left.
    destruct (Reject_store _ _ _ _ _ _ _ H HV HV')
      as (a & blk & -> & Hb & [->|(Hv & r1 & s1 & E1 & Hs)]); [reflexivity|].
    apply PutBlock_view in E1 as (L1 & _). rewrite <- L1.
    destruct Hs as [->| ->]; [reflexivity|].
    unfold Store.lastAccepted.
    destruct (Store.Commit s1) as [r3 s3] eqn:E3. cbn [snd].
    now rewrite (Commit_view _ _ _ E3).
Qed.

(** X24.  A call writes no record but its own block's.  After any one call
    the record that a store shows under an id is the one of before, unless
    the call is [Accept] or [Reject] of a block of that VM with that id, and
    then it is the one of before or that block with its new status. *)
Theorem only_own_record_written c r w w' v V V' k :
  run_call ComputeHash256Array c w = Done r w' ->
  vms w !! v = Some V -> vms w' !! v = Some V' ->
  Store.view_blocks (state V') !! k = Store.view_blocks (state V) !! k \/
  exists a blk s,
    (c = CallAccept (Some a) /\ s = choices.Accepted \/
     c = CallReject (Some a) /\ s = choices.Rejected) /\
    blocks w !! a = Some blk /\ b_vm blk = Some v /\ k = b_id blk /\
    Store.view_blocks (state V') !! k = Some (with_status s blk).
Proof.
  intros H HV HV'.
  destruct c as [b bytes status vm|now b|b|b]; cbn [run_call] in H.
  - unfold bind in H.
    destruct (Initialize _ _ _ _ _ w) as [[] w1|] eqn:E; [|discriminate].
    injection H as _ <-.
    destruct (Initialize_Done _ _ _ _ _ _ _ _ E) as (a & blk & _ & _ & ->).
    cbn [vms] in HV'. rewrite HV in HV'. injection HV' as <-. now left.
  - left. now rewrite (proj1 (Verify_store _ _ _ _ _ _ _ _ H HV HV')).
  - destruct (Accept_store _ _ _ _ _ _ _ H HV HV')
      as (a & blk & -> & Hb & [->|(Hv & r1 & s1 & E1 & Hs)]); [now left|].
    apply PutBlock_view in E1 as (_ & K1 & K2).
    cbn [b_id with_status] in K1, K2.
    assert (K3 : Store.view_blocks (state V') = Store.view_blocks s1).
    { destruct Hs as [->|(r2 & s2 & E2 & Hs)]; [reflexivity|].
      apply SetLastAccepted_view in E2 as (<- & _).
      destruct Hs as [->| ->]; [reflexivity|].
      unfold Store.view_blocks.
      destruct (Store.Commit s2) as [r3 s3] eqn:E3. cbn [snd].
      now rewrite (Commit_view _ _ _ E3). }
    rewrite K3. destruct (decide (k = b_id blk)) as [->|Hk]; [|auto].
    destruct K2 as [->|K2]; [now left|].
    right. exists a, blk, choices.Accepted. auto 10.
  - destruct (Reject_store _ _ _ _ _ _ _ H HV HV')
      as (a & blk & -> & Hb & [->|(Hv & r1 & s1 & E1 & Hs)]); [now left|].
    apply PutBlock_view in E1 as (_ & K1 & K2).
    cbn [b_id with_status] in K1, K2.
    assert (K3 : Store.view_blocks (state V') = Store.view_blocks s1).
    { destruct Hs as [->| ->]; [reflexivity|].
      unfold Store.view_blocks.
      destruct (Store.Commit s1) as [r3 s3] eqn:E3. cbn [snd].
      now rewrite (Commit_view _ _ _ E3). }
    rewrite K3. destruct (decide (k = b_id blk)) as [->|Hk]; [|auto].
    destruct K2 as [->|K2]; [now left|].
    right. exists a, blk, choices.Rejected. auto 10.
Qed.

End StoreWrites.

Lemma only_Accept_moves_pointer_witness :
  Store.lastAccepted (state (SampleChain.vm_of Sample.world3)) =
  Store.lastAccepted (state (SampleChain.vm_of (Sample.world2 []))) \/
  exists a blk,
    CallAccept (Some 0%nat) = CallAccept (Some a) /\
    blocks (Sample.world2 []) !! a = Some blk /\
    b_vm blk = Some 0%nat /\
    Store.lastAccepted (state (SampleChain.vm_of Sample.world3))
    = Some (b_id blk).
Proof.
  apply (only_Accept_moves_pointer Sample.hash (CallAccept (Some 0%nat)) None
           (Sample.world2 []) Sample.world3 0%nat
           (SampleChain.vm_of (Sample.world2 []))
           (SampleChain.vm_of Sample.world3));
    vm_compute; reflexivity.
Defined.

Lemma only_own_record_written_witness :
  Store.view_blocks (state (SampleChain.vm_of Sample.world4)) !! 101 =
  Store.view_blocks (state (SampleChain.vm_of (Sample.world2 []))) !! 101 \/
  exists a blk s,
    (CallReject (Some 0%nat) = CallAccept (Some a) /\ s = choices.Accepted \/
     CallReject (Some 0%nat) = CallReject (Some a) /\ s = choices.Rejected) /\
    blocks (Sample.world2 []) !! a = Some blk /\ b_vm blk = Some 0%nat /\
    101 = b_id blk /\
    Store.view_blocks (state (SampleChain.vm_of Sample.world4)) !! 101
    = Some (with_status s blk).
Proof.
  apply (only_own_record_written Sample.hash (CallReject (Some 0%nat)) None
           (Sample.world2 []) Sample.world4 0%nat
           (SampleChain.vm_of (Sample.world2 []))
           (SampleChain.vm_of Sample.world4) 101);
    vm_compute; reflexivity.
Defined.
